(** * parking_server: request validation, gateway delegation, response shaping

    A shallow embedding of the three Express servers of the repository:

    - [Razorpay]       : [src/index.js], the current Razorpay server;
    - [RazorpayLegacy] : the two earlier copies of that server kept in
                         [src/unnamed/part_001] (their two handlers are
                         textually the same in both copies);
    - [Stripe]         : the Stripe checkout server of [src/unnamed/part_000];
    - [Cors]           : the CORS policy of [src/index.js] and of the second
                         copy in [src/unnamed/part_001], and the error
                         handler of [src/index.js];
    - [Diagnostics]    : the two diagnostic routes of [src/index.js];
    - [Catalog]        : the product listing and the health check of
                         [src/unnamed/part_000].

    Module [JS] holds the fragment of ECMAScript the handlers rely on:
    JSON values, truthiness, the conversions [ToString] and [ToNumber]
    (which may throw), IEEE-754 binary64 arithmetic (Rocq's primitive
    floats), [Math.round], [Number.prototype.toFixed] and property lookup
    through [Object.prototype].

    A handler is a program of type [prog effect response]: it returns the
    response it sends, raises the exception that escapes it, or performs an
    external call (payment gateway, clock, console) and continues with the
    answer.  [run] executes a program against a world that answers the
    external calls and records the calls made.

    What the [console.*] statements of the two Razorpay servers print is
    left out of the embedding (section 1 of the specification places
    logging out of scope), but not what evaluating their arguments may
    throw: a template literal converts each value it interpolates to a
    String, and that conversion, kept as [template], throws for some JSON
    values.  [JSON.stringify] is total on the values of the embedding and
    [req.ip] is a String: the statements that only print these are left
    out whole.  The console calls of the Stripe server are kept as calls,
    since the dispatch of its webhook consists of nothing else.
    The SDKs of the two gateways are external: what they resolve with is
    typed as an object, what they reject with or throw as an error
    object; the event [constructEvent] returns is the parsed request body,
    any JSON value.
    A request body is the object [express.json()] leaves in [req.body]. *)

Set Warnings "-register-all,-inexact-float".
From Stdlib Require Import Ascii Floats ZArith DecimalString.
From stdpp Require Import gmap strings list.

Module JS.

(** ** Values *)

(** Objects that do not come from JSON: [Object.prototype] and its
    (native) function members, reached through the prototype chain. *)
Inductive builtin : Type :=
| ObjectPrototype
| NativeFunction (name : string).

Inductive value : Type :=
| VUndefined
| VNull
| VBool (b : bool)
| VNum (x : float)
| VStr (s : string)
| VArr (elems : list value)
| VObj (props : gmap string value)
| VBuiltin (b : builtin).

(** A thrown value: the own properties of the error object. *)
Abbreviation exn := (gmap string value).

Inductive completion (A : Type) : Type :=
| Returns (a : A)
| Throws (e : exn).
Arguments Returns {A} a.
Arguments Throws {A} e.

Definition cbind {A B} (c : completion A) (f : A -> completion B) : completion B :=
  match c with
  | Returns a => f a
  | Throws e => Throws e
  end.

#[global] Instance completion_ret : MRet completion := fun A a => Returns a.
#[global] Instance completion_bind : MBind completion :=
  fun A B f c => cbind c f.

Definition TypeError (message : string) : exn :=
  {[ "message" := VStr message ]}.

(** [ToBoolean]. *)
Definition truthy (v : value) : bool :=
  match v with
  | VUndefined | VNull => false
  | VBool b => b
  | VNum x => negb (PrimFloat.is_nan x || PrimFloat.is_zero x)
  | VStr s => negb (String.eqb s "")
  | VArr _ | VObj _ | VBuiltin _ => true
  end.

(** ** Numbers *)

Local Open Scope Z_scope.

(** The Number value of an integer. *)
Definition Z_to_float (z : Z) : float :=
  SF2Prim (binary_normalize prec emax z 0 false).

(** The Number value (round to nearest, ties to even) of [digits * 10^p]. *)
Definition decimal_to_SF (neg : bool) (digits : positive) (p : Z) : spec_float :=
  match p with
  | Zneg k =>
      let '(q, e, l) :=
        SFdiv_core_binary prec emax (Zpos digits) 0 (Zpos (10 ^ k)) 0 in
      binary_round_aux prec emax neg q e l
  | _ => binary_round prec emax neg (digits * Z.to_pos (10 ^ p)) 0
  end.

Definition decimal_to_float (neg : bool) (digits : Z) (p : Z) : float :=
  match digits with
  | Zpos d => SF2Prim (decimal_to_SF neg d p)
  | _ => if neg then neg_zero else zero
  end.

Definition digits_of (n : Z) : string :=
  NilZero.string_of_uint (N.to_uint (Z.to_N n)).

Fixpoint zeros (n : nat) : string :=
  match n with
  | O => ""
  | S n' => "0" +:+ zeros n'
  end.

(** A positive finite float [m * 2^e] as a fraction of positive integers. *)
Definition fraction_of (m : positive) (e : Z) : Z * Z :=
  match e with
  | Zneg k => (Zpos m, Zpos (2 ^ k))
  | _ => (Zpos m * 2 ^ e, 1)
  end.

(** [num/den] scaled by [10^t], again as a fraction. *)
Definition scale10 (nd : Z * Z) (t : Z) : Z * Z :=
  match t with
  | Zneg k => (fst nd, snd nd * Zpos (10 ^ k))
  | _ => (fst nd * 10 ^ t, snd nd)
  end.

(** The least [n >= n0] with [num/den < 10^n], searched upwards. *)
Fixpoint magnitude_from (fuel : nat) (nd : Z * Z) (n : Z) : Z :=
  match fuel with
  | O => n
  | S fuel' =>
      let '(a, b) := scale10 nd (- n) in
      if a <? b then n else magnitude_from fuel' nd (n + 1)
  end.

Definition magnitude (m : positive) (e : Z) : Z :=
  let d := Z.log2 (Zpos m) + e in
  magnitude_from 8 (fraction_of m e) (d * 30102 / 100000 - 1).

(** The shortest decimal [s * 10^(n-k)], [s] of [k] digits, whose Number
    value is [m * 2^e]; among several [s] the one closest to the float,
    the even one on a tie (Number::toString, step 5).  Returns [(s, n)]. *)
Fixpoint shortest_from (fuel : nat) (m : positive) (e : Z) (n k : Z) : Z * Z :=
  let '(a, b) := scale10 (fraction_of m e) (k - n) in
  let lo := a / b in
  let r := a mod b in
  let hi := lo + 1 in
  let same s := SFeqb (match s with
                       | Zpos d => decimal_to_SF false d (n - k)
                       | _ => S754_zero false
                       end) (S754_finite false m e) in
  let pick s := if s =? 10 ^ k then (10 ^ (k - 1), n + 1) else (s, n) in
  match fuel with
  | O => pick lo
  | S fuel' =>
      if r =? 0 then pick lo
      else
        match same lo, same hi with
        | true, true =>
            match 2 * r ?= b with
            | Lt => pick lo
            | Gt => pick hi
            | Eq => if Z.even lo then pick lo else pick hi
            end
        | true, false => pick lo
        | false, true => pick hi
        | false, false => shortest_from fuel' m e n (k + 1)
        end
  end.

(** Number::toString (radix 10), steps 6 to 10, for the digits [s] and the
    decimal exponent [n]. *)
Definition layout (s n : Z) : string :=
  let ds := digits_of s in
  let k := Z.of_nat (String.length ds) in
  if (k <=? n) && (n <=? 21) then ds +:+ zeros (Z.to_nat (n - k))
  else if (0 <? n) && (n <=? 21) then
    String.substring 0 (Z.to_nat n) ds +:+ "." +:+
    String.substring (Z.to_nat n) (Z.to_nat (k - n)) ds
  else if (-6 <? n) && (n <=? 0) then "0." +:+ zeros (Z.to_nat (- n)) +:+ ds
  else
    let ex := (if n - 1 <? 0 then "-" else "+") +:+ digits_of (Z.abs (n - 1)) in
    if k =? 1 then ds +:+ "e" +:+ ex
    else String.substring 0 1 ds +:+ "." +:+ String.substring 1 (Z.to_nat (k - 1)) ds
         +:+ "e" +:+ ex.

(** Number::toString. *)
Definition number_to_string (x : float) : string :=
  match Prim2SF x with
  | S754_nan => "NaN"
  | S754_zero _ => "0"
  | S754_infinity s => if s then "-Infinity" else "Infinity"
  | S754_finite s m e =>
      let '(d, n) := shortest_from 17 m e (magnitude m e) 1 in
      (if s then "-" else "") +:+ layout d n
  end.

(** Number.prototype.toFixed(f). *)
Definition to_fixed (x : float) (f : nat) : string :=
  match Prim2SF x with
  | S754_finite s m e =>
      let '(a, b) := fraction_of m e in
      if 10 ^ 21 * b <=? a then number_to_string x
      else
        let '(a', b') := scale10 (a, b) (Z.of_nat f) in
        let n := (2 * a' + b') / (2 * b') in
        let ds := digits_of n in
        let ds := zeros (S f - String.length ds)%nat +:+ ds in
        let k := String.length ds in
        (if s then "-" else "") +:+
        match f with
        | O => ds
        | _ => String.substring 0 (k - f)%nat ds +:+ "." +:+ String.substring (k - f)%nat f ds
        end
  | S754_zero _ =>
      match f with
      | O => "0"
      | _ => "0." +:+ zeros f
      end
  | _ => number_to_string x
  end.

(** Math.round: the nearest integer, ties towards +Infinity; zeros,
    infinities and NaN are returned as they are, and a result of zero
    keeps the sign of the argument. *)
Definition Math_round (x : float) : float :=
  match Prim2SF x with
  | S754_finite s m (Zneg k) =>
      let b := Zpos (2 ^ k) in
      let a := if s then Zneg m else Zpos m in
      let n := (2 * a + b) / (2 * b) in
      if n =? 0 then (if s then neg_zero else zero) else Z_to_float n
  | _ => x
  end.

(** *** StringToNumber *)

Fixpoint strip_prefix (p s : string) : option string :=
  match p, s with
  | EmptyString, _ => Some s
  | String a p', String b s' => if Ascii.eqb a b then strip_prefix p' s' else None
  | String _ _, EmptyString => None
  end.

Definition of_bytes (l : list nat) : string :=
  fold_right (fun n s => String (Ascii.ascii_of_nat n) s) EmptyString l.

(** WhiteSpace and LineTerminator code points, in UTF-8. *)
Definition white_space : list string :=
  of_bytes <$>
    [ [9]; [10]; [11]; [12]; [13]; [32]; [194; 160]; [225; 154; 128];
      [226; 128; 128]; [226; 128; 129]; [226; 128; 130]; [226; 128; 131];
      [226; 128; 132]; [226; 128; 133]; [226; 128; 134]; [226; 128; 135];
      [226; 128; 136]; [226; 128; 137]; [226; 128; 138]; [226; 128; 168];
      [226; 128; 169]; [226; 128; 175]; [226; 129; 159]; [227; 128; 128];
      [239; 187; 191] ]%nat.

Definition skip_one (s : string) : option string :=
  foldr (fun w found =>
           match strip_prefix w s with
           | Some rest => Some rest
           | None => found
           end) None white_space.

Fixpoint skip_white (fuel : nat) (s : string) : string :=
  match fuel with
  | O => s
  | S fuel' =>
      match skip_one s with
      | Some rest => skip_white fuel' rest
      | None => s
      end
  end.

Definition trim_left (s : string) : string := skip_white (String.length s) s.

Definition blank (s : string) : bool := String.eqb (trim_left s) "".

Definition digit_value (base : Z) (c : Ascii.ascii) : option Z :=
  let n := Z.of_nat (Ascii.nat_of_ascii c) in
  let d := if (48 <=? n) && (n <=? 57) then n - 48
           else if (97 <=? n) && (n <=? 102) then n - 87
           else if (65 <=? n) && (n <=? 70) then n - 55
           else base in
  if d <? base then Some d else None.

(** Reads a run of digits: the value accumulated onto [acc], the number
    of digits read and the rest of the string. *)
Fixpoint read_digits (base : Z) (s : string) (acc : Z) (count : nat)
  : Z * nat * string :=
  match s with
  | EmptyString => (acc, count, s)
  | String c s' =>
      match digit_value base c with
      | Some d => read_digits base s' (acc * base + d) (S count)
      | None => (acc, count, s)
      end
  end.

Definition read_sign (s : string) : bool * string :=
  match s with
  | String "+"%char r => (false, r)
  | String "-"%char r => (true, r)
  | _ => (false, s)
  end.

Definition read_exponent (s : string) : option (Z * string) :=
  match s with
  | String c s' =>
      if Ascii.eqb c "e"%char || Ascii.eqb c "E"%char then
        let '(neg, s'') := read_sign s' in
        let '(v, count, rest) := read_digits 10 s'' 0 0 in
        match count with
        | O => None
        | _ => Some (if neg then - v else v, rest)
        end
      else Some (0, s)
  | EmptyString => Some (0, s)
  end.

(** StrDecimalLiteral followed by white space only. *)
Definition read_decimal (s : string) : option float :=
  let '(neg, s) := read_sign s in
  match strip_prefix "Infinity" s with
  | Some rest =>
      if blank rest then Some (if neg then neg_infinity else infinity) else None
  | None =>
      let '(ip, ic, r1) := read_digits 10 s 0 0 in
      let '(mant, fc, r2) :=
        match r1 with
        | String "."%char r => read_digits 10 r ip 0
        | _ => (ip, O, r1)
        end in
      match (ic + fc)%nat with
      | O => None
      | _ =>
          match read_exponent r2 with
          | Some (ex, r3) =>
              if blank r3
              then Some (decimal_to_float neg mant (ex - Z.of_nat fc))
              else None
          | None => None
          end
      end
  end.

(** NonDecimalIntegerLiteral ([0x], [0o], [0b]) followed by white space only. *)
Definition read_radix (s : string) : option float :=
  match s with
  | String "0"%char (String c r) =>
      let base := if Ascii.eqb c "x"%char || Ascii.eqb c "X"%char then 16
                  else if Ascii.eqb c "o"%char || Ascii.eqb c "O"%char then 8
                  else if Ascii.eqb c "b"%char || Ascii.eqb c "B"%char then 2
                  else 0 in
      let '(v, count, rest) := read_digits base r 0 0 in
      match count with
      | O => None
      | _ => if blank rest then Some (Z_to_float v) else None
      end
  | _ => None
  end.

Definition string_to_number (s : string) : float :=
  let t := trim_left s in
  if String.eqb t "" then zero
  else match read_radix t with
       | Some x => x
       | None =>
           match read_decimal t with
           | Some x => x
           | None => nan
           end
       end.

Local Close Scope Z_scope.

(** ** Conversions *)

(** [ToString].  An object is converted through [ToPrimitive]: an own
    [toString] property of a JSON object is never callable, so the
    inherited [Object.prototype.toString] is out of reach, [valueOf] yields
    no primitive either and the conversion throws; an array is joined. *)
Fixpoint to_string (v : value) : completion string :=
  match v with
  | VUndefined => Returns "undefined"
  | VNull => Returns "null"
  | VBool b => Returns (if b then "true" else "false")
  | VNum x => Returns (number_to_string x)
  | VStr s => Returns s
  | VArr elems =>
      (fix join (l : list value) : completion string :=
         match l with
         | [] => Returns ""
         | e :: rest =>
             let first :=
               match e with
               | VUndefined | VNull => Returns ""
               | _ => to_string e
               end in
             match rest with
             | [] => first
             | _ => cbind first (fun s =>
                    cbind (join rest) (fun t => Returns (s +:+ "," +:+ t)))
             end
         end) elems
  | VObj props =>
      match props !! "toString" with
      | Some _ => Throws (TypeError "Cannot convert object to primitive value")
      | None => Returns "[object Object]"
      end
  | VBuiltin ObjectPrototype => Returns "[object Object]"
  | VBuiltin (NativeFunction name) =>
      Returns ("function " +:+ name +:+ "() { [native code] }")
  end.

(** The conversions made by a template literal [`..${v1}..${vn}..`] whose
    text is only printed: each interpolated value is converted to a
    String, in order. *)
Fixpoint template (vs : list value) : completion unit :=
  match vs with
  | [] => Returns tt
  | v :: rest => cbind (to_string v) (fun _ => template rest)
  end.

(** [ToNumber]. *)
Definition to_number (v : value) : completion float :=
  match v with
  | VUndefined => Returns nan
  | VNull => Returns zero
  | VBool b => Returns (if b then one else zero)
  | VNum x => Returns x
  | VStr s => Returns (string_to_number s)
  | VArr _ | VObj _ | VBuiltin _ =>
      cbind (to_string v) (fun s => Returns (string_to_number s))
  end.

(** The global [isNaN(v)]. *)
Definition isNaN (v : value) : completion bool :=
  cbind (to_number v) (fun x => Returns (PrimFloat.is_nan x)).

(** [v < y], [v <= y], [v >= y], [v > y] against a Number [y]. *)
Definition lt (v : value) (y : float) : completion bool :=
  cbind (to_number v) (fun x => Returns (PrimFloat.ltb x y)).
Definition le (v : value) (y : float) : completion bool :=
  cbind (to_number v) (fun x => Returns (PrimFloat.leb x y)).
Definition ge (v : value) (y : float) : completion bool :=
  cbind (to_number v) (fun x => Returns (PrimFloat.leb y x)).
Definition gt (v : value) (y : float) : completion bool :=
  cbind (to_number v) (fun x => Returns (PrimFloat.ltb y x)).

(** [v * y] and [v / y] for a Number [y]. *)
Definition mul (v : value) (y : float) : completion float :=
  cbind (to_number v) (fun x => Returns (PrimFloat.mul x y)).
Definition div (v : value) (y : float) : completion float :=
  cbind (to_number v) (fun x => Returns (PrimFloat.div x y)).

(** [v === y] for a Number [y] and [v === s] for a String [s]. *)
Definition strict_eq_num (v : value) (y : float) : bool :=
  match v with
  | VNum x => PrimFloat.eqb x y
  | _ => false
  end.
Definition strict_eq_str (v : value) (s : string) : bool :=
  match v with
  | VStr t => String.eqb t s
  | _ => false
  end.

(** ** Property access *)

Definition Object_prototype_members : list string :=
  [ "constructor"; "__defineGetter__"; "__defineSetter__"; "hasOwnProperty";
    "__lookupGetter__"; "__lookupSetter__"; "isPrototypeOf";
    "propertyIsEnumerable"; "toString"; "valueOf"; "__proto__";
    "toLocaleString" ].

(** What an ordinary object inherits from [Object.prototype] under [key]. *)
Definition inherited (key : string) : value :=
  if bool_decide (key ∈ Object_prototype_members) then
    if String.eqb key "__proto__" then VBuiltin ObjectPrototype
    else if String.eqb key "constructor" then VBuiltin (NativeFunction "Object")
    else VBuiltin (NativeFunction key)
  else VUndefined.

(** [o[key]] on an ordinary object with own properties [o]. *)
Definition get (o : gmap string value) (key : string) : value :=
  match o !! key with
  | Some v => v
  | None => inherited key
  end.

(** [v.key].  Reading a property of [undefined] or [null] throws.  Of the
    own properties of built-in functions only [name] is covered, and the
    members of [String.prototype], [Array.prototype] and the like are not:
    the handlers read none of them. *)
Definition member (v : value) (key : string) : completion value :=
  match v with
  | VUndefined =>
      Throws (TypeError ("Cannot read properties of undefined (reading '"
                         +:+ key +:+ "')"))
  | VNull =>
      Throws (TypeError ("Cannot read properties of null (reading '"
                         +:+ key +:+ "')"))
  | VObj o => Returns (get o key)
  | VBuiltin (NativeFunction name) =>
      Returns (if String.eqb key "name" then VStr name else inherited key)
  | VBuiltin ObjectPrototype =>
      Returns (if String.eqb key "__proto__" then VNull else inherited key)
  | VBool _ | VNum _ | VStr _ | VArr _ => Returns (inherited key)
  end.

(** The own enumerable properties copied by an object spread [{...v}]:
    all of them for a JSON object, the elements under their indices for an
    array, none for [undefined], [null], a Boolean, a Number or a built-in
    (the characters of a String are not covered: no handler spreads one). *)
Definition spread (v : value) : gmap string value :=
  match v with
  | VObj o => o
  | VArr elems =>
      list_to_map
        (imap (fun i e => (number_to_string (Z_to_float (Z.of_nat i)), e)) elems)
  | _ => ∅
  end.

(** An object literal. *)
Definition object (fields : list (string * value)) : value :=
  VObj (list_to_map fields).

End JS.

(** * Handlers as programs *)

Module Http.
Import JS.

Inductive payload : Type :=
| Json (v : value)
| Text (s : string).

(** What [res.status(code).json(v)] and [res.status(code).send(s)] send. *)
Record response : Type := Response { status : nat; body : payload }.

Definition json (code : nat) (v : value) : response := Response code (Json v).
Definition send (code : nat) (s : string) : response := Response code (Text s).

(** A program over the external calls [E]. *)
Inductive prog (E : Type -> Type) (A : Type) : Type :=
| Ret (a : A)
| Raise (e : exn)
| Vis (X : Type) (call : E X) (k : X -> prog E A).
Arguments Ret {E A} a.
Arguments Raise {E A} e.
Arguments Vis {E A X} call k.

Fixpoint bind {E A B} (p : prog E A) (f : A -> prog E B) : prog E B :=
  match p with
  | Ret a => f a
  | Raise e => Raise e
  | Vis call k => Vis call (fun x => bind (k x) f)
  end.

#[global] Instance prog_ret {E} : MRet (prog E) := fun A a => Ret a.
#[global] Instance prog_bind {E} : MBind (prog E) := fun A B f p => bind p f.

(** [try { p } catch (error) { h error }] *)
Fixpoint try_catch {E A} (p : prog E A) (h : exn -> prog E A) : prog E A :=
  match p with
  | Ret a => Ret a
  | Raise e => h e
  | Vis call k => Vis call (fun x => try_catch (k x) h)
  end.

Definition trigger {E X} (call : E X) : prog E X := Vis call Ret.

Definition lift {E A} (c : completion A) : prog E A :=
  match c with
  | Returns a => Ret a
  | Throws e => Raise e
  end.

(** [await call]: the value a promise resolves with, or its rejection
    thrown. *)
Definition await {E A} (call : E (completion A)) : prog E A :=
  Vis call lift.

(** An external call that was made. *)
Inductive made (E : Type -> Type) : Type :=
| Made (X : Type) (call : E X).
Arguments Made {E X} call.

(** A world answers every external call. *)
Definition world (E : Type -> Type) : Type := forall X, E X -> X.

(** Runs a program: the calls made, in order, and how it completes. *)
Fixpoint run {E A} (w : world E) (p : prog E A) : list (made E) * completion A :=
  match p with
  | Ret a => ([], Returns a)
  | Raise e => ([], Throws e)
  | Vis call k =>
      let '(calls, c) := run w (k (w _ call)) in
      (Made call :: calls, c)
  end.

End Http.

(** * src/index.js: the Razorpay server *)

Module Razorpay.
Import JS Http.

Inductive effect : Type -> Type :=
| DateNow : effect Z
  (** [Date.now()], in milliseconds *)
| OrdersCreate (options : value) : effect (completion (gmap string value)).
  (** [razorpay.orders.create(options)], settled: the order object the
      promise resolves with, or the error it rejects with *)

Definition getenv (env : gmap string string) (name : string) : value :=
  match env !! name with
  | Some s => VStr s
  | None => VUndefined
  end.

(** Server initialisation: the value of the module variable [razorpay]
    once the server listens, [None] when the process exits with code 1.
    [new_Razorpay] is the SDK's constructor. *)
Definition startup (env : gmap string string)
    (new_Razorpay : value -> completion (gmap string value)) : option value :=
  if negb (truthy (getenv env "RAZORPAY_KEY_ID"))
     || negb (truthy (getenv env "RAZORPAY_SECRET"))
  then None
  else
    match new_Razorpay
            (object [ ("key_id", getenv env "RAZORPAY_KEY_ID");
                      ("key_secret", getenv env "RAZORPAY_SECRET") ]) with
    | Returns instance => Some (VObj instance)
    | Throws _ => None
    end.

(** The [catch] block of POST /api/create-razorpay-order.  Its first
    statements print [error.message], [error.stack] and two calls of
    [JSON.stringify]; then [`HTTP Status: ${error.statusCode}`] is printed
    when the status code is truthy. *)
Definition order_failed (error : exn) : prog effect response :=
  let statusCode := get error "statusCode" in
  let code := get error "code" in
  _ ← (if truthy statusCode then lift (template [statusCode]) else Ret tt);
  '(errorMessage, status) ←
    (if strict_eq_num statusCode 401 then
       Ret ("Authentication failed with payment provider. Please check credentials.",
            500)
     else if strict_eq_num statusCode 400 then
       Ret ("Invalid request to payment provider. Please check the request data.",
            400)
     else if strict_eq_str code "ENOTFOUND" || strict_eq_str code "ECONNREFUSED" then
       Ret ("Unable to connect to payment provider. Please try again later.",
            500)
     else
       upstream ← lift (ge statusCode 500);
       if upstream : bool then
         Ret ("Payment provider is temporarily unavailable. Please try again later.",
              503)
       else Ret ("Failed to create payment order", 500));
  Ret (json status
         (object [ ("error", VStr errorMessage);
                   ("message", get error "message");
                   ("statusCode", statusCode) ])).

(** The options handed to [razorpay.orders.create]. *)
Definition order_options (paise : float) (now : Z) (spotName duration : value)
  : value :=
  object [ ("amount", VNum (Math_round paise));
           ("currency", VStr "INR");
           ("receipt",
            VStr ("receipt_order_" +:+ number_to_string (Z_to_float now)));
           ("notes", object [ ("spotName", spotName);
                              ("duration", duration) ]) ].

(** [process.env.RAZORPAY_KEY_ID.substring(0, 10) + '...'], printed before
    the gateway is called: reading [substring] of [undefined] throws. *)
Definition key_id_prefix (env : gmap string string) : completion unit :=
  match env !! "RAZORPAY_KEY_ID" with
  | Some _ => Returns tt
  | None =>
      Throws (TypeError
                "Cannot read properties of undefined (reading 'substring')")
  end.

(** POST /api/create-razorpay-order; [env] is [process.env], [razorpay] is
    the module variable and [body] is [req.body]. *)
Definition create_order (env : gmap string string) (razorpay : value)
    (body : gmap string value) : prog effect response :=
  try_catch
    (let amount := get body "amount" in
     let spotName := get body "spotName" in
     let duration := get body "duration" in
     _ ← lift (template [amount; spotName; duration]);
     if negb (truthy amount) || negb (truthy spotName) || negb (truthy duration)
     then Ret (json 400 (object [ ("error", VStr "Missing required fields") ]))
     else
       not_a_number ← lift (isNaN amount);
       invalid ← (if not_a_number : bool then Ret true else lift (le amount 0));
       if invalid : bool then
         Ret (json 400
                (object [ ("error",
                           VStr "Invalid amount. Amount must be a positive number.") ]))
       else
         let minimumAmount := VNum 50 in
         below ← lift (lt amount 50);
         if below : bool then
           _ ← lift (template [amount; minimumAmount]);
           minimum ← lift (to_string minimumAmount);
           given ← lift (to_string amount);
           Ret (json 400
                  (object [ ("error",
                             VStr ("Minimum booking amount is ₹" +:+ minimum
                                   +:+ ". Your amount: ₹" +:+ given));
                            ("minimumAmount", minimumAmount) ]))
         else
           paise ← lift (mul amount 100);
           now ← trigger DateNow;
           let options := order_options paise now spotName duration in
           if negb (truthy razorpay) then
             Ret (json 500
                    (object [ ("error", VStr "Payment system not initialized");
                              ("message",
                               VStr "Razorpay instance is not properly initialized") ]))
           else
             _ ← lift (key_id_prefix env);
             order ← await (OrdersCreate options);
             _ ← lift (template [get order "id"]);
             _ ← lift (template [get order "amount"; get order "currency"]);
             _ ← lift (template [get order "receipt"]);
             Ret (json 200 (object [ ("orderId", get order "id");
                                     ("amount", get order "amount");
                                     ("currency", get order "currency") ])))
    order_failed.

(** POST /api/verify-razorpay-payment.  The [catch] block prints
    [`HTTP Status: ${error.statusCode}`] when the status code is truthy. *)
Definition verify_payment (body : gmap string value) : prog effect response :=
  try_catch
    (let razorpay_order_id := get body "razorpay_order_id" in
     let razorpay_payment_id := get body "razorpay_payment_id" in
     let razorpay_signature := get body "razorpay_signature" in
     let bookingData := get body "bookingData" in
     let spotId := get body "spotId" in
     let userId := get body "userId" in
     _ ← lift (template [ razorpay_order_id; razorpay_payment_id; spotId;
                          userId ]);
     if negb (truthy razorpay_order_id) || negb (truthy razorpay_payment_id)
        || negb (truthy bookingData) || negb (truthy spotId)
        || negb (truthy userId)
     then Ret (json 400 (object [ ("error", VStr "Missing required fields") ]))
     else
       _ ← lift (template [razorpay_payment_id]);
       Ret (json 200 (object [ ("success", VBool true);
                               ("paymentId", razorpay_payment_id);
                               ("orderId", razorpay_order_id);
                               ("bookingData", bookingData) ])))
    (fun error =>
       let statusCode := get error "statusCode" in
       _ ← (if truthy statusCode then lift (template [statusCode]) else Ret tt);
       Ret (json 500 (object [ ("error", VStr "Failed to verify payment");
                               ("message", get error "message") ]))).

End Razorpay.

(** * src/unnamed/part_001: the two earlier copies of the Razorpay server *)

Module RazorpayLegacy.
Import JS Http.

Inductive effect : Type -> Type :=
| DateNow : effect Z
| OrdersCreate (options : value) : effect (completion (gmap string value)).

(** POST /api/create-razorpay-order: no [isNaN]/positivity check, no
    rounding of the amount, one answer for every failure. *)
Definition create_order (body : gmap string value) : prog effect response :=
  try_catch
    (let amount := get body "amount" in
     let spotName := get body "spotName" in
     let duration := get body "duration" in
     _ ← lift (template [amount; spotName; duration]);
     if negb (truthy amount) || negb (truthy spotName) || negb (truthy duration)
     then Ret (json 400 (object [ ("error", VStr "Missing required fields") ]))
     else
       let minimumAmount := VNum 50 in
       below ← lift (lt amount 50);
       if below : bool then
         _ ← lift (template [amount; minimumAmount]);
         minimum ← lift (to_string minimumAmount);
         given ← lift (to_string amount);
         Ret (json 400
                (object [ ("error",
                           VStr ("Minimum booking amount is ₹" +:+ minimum
                                 +:+ ". Your amount: ₹" +:+ given));
                          ("minimumAmount", minimumAmount) ]))
       else
         paise ← lift (mul amount 100);
         now ← trigger DateNow;
         let options :=
           object [ ("amount", VNum paise);
                    ("currency", VStr "INR");
                    ("receipt",
                     VStr ("receipt_order_"
                           +:+ number_to_string (Z_to_float now)));
                    ("notes", object [ ("spotName", spotName);
                                       ("duration", duration) ]) ] in
         order ← await (OrdersCreate options);
         _ ← lift (template [get order "id"]);
         _ ← lift (template [get order "amount"; get order "currency"]);
         Ret (json 200 (object [ ("orderId", get order "id");
                                 ("amount", get order "amount");
                                 ("currency", get order "currency") ])))
    (fun error =>
       Ret (json 500 (object [ ("error", VStr "Failed to create payment order");
                               ("message", get error "message") ]))).

(** POST /api/verify-razorpay-payment. *)
Definition verify_payment (body : gmap string value) : prog effect response :=
  try_catch
    (let razorpay_order_id := get body "razorpay_order_id" in
     let razorpay_payment_id := get body "razorpay_payment_id" in
     let razorpay_signature := get body "razorpay_signature" in
     let bookingData := get body "bookingData" in
     let spotId := get body "spotId" in
     let userId := get body "userId" in
     _ ← lift (template [ razorpay_order_id; razorpay_payment_id; spotId;
                          userId ]);
     if negb (truthy razorpay_order_id) || negb (truthy razorpay_payment_id)
        || negb (truthy bookingData) || negb (truthy spotId)
        || negb (truthy userId)
     then Ret (json 400 (object [ ("error", VStr "Missing required fields") ]))
     else
       _ ← lift (template [razorpay_payment_id]);
       Ret (json 200 (object [ ("success", VBool true);
                               ("paymentId", razorpay_payment_id);
                               ("orderId", razorpay_order_id);
                               ("bookingData", bookingData) ])))
    (fun error =>
       Ret (json 500 (object [ ("error", VStr "Failed to verify payment");
                               ("message", get error "message") ]))).

End RazorpayLegacy.

(** * src/unnamed/part_000: the Stripe checkout server *)

Module Stripe.
Import JS Http.

Inductive effect : Type -> Type :=
| SessionsCreate (params : value) : effect (completion (gmap string value))
  (** [stripeClient.checkout.sessions.create(params)], settled *)
| SessionsRetrieve (sessionId : string) : effect (completion (gmap string value))
  (** [stripeClient.checkout.sessions.retrieve(sessionId)], settled *)
| ConstructEvent (payload sig secret : value) : effect (completion value)
  (** [stripeClient.webhooks.constructEvent(payload, sig, secret)]: the
      verified event, which is the parsed payload, or the error thrown
      when verification fails *)
| ConsoleLog (args : list value) : effect unit
| ConsoleError (args : list value) : effect unit.

Definition getenv (env : gmap string string) (name : string) : value :=
  match env !! name with
  | Some s => VStr s
  | None => VUndefined
  end.

Definition product (name : string) (price hours : float) : value :=
  object [ ("name", VStr name); ("price", VNum price); ("hours", VNum hours) ].

Definition PARKING_PRODUCTS : gmap string value :=
  list_to_map
    [ ("1", product "1 Hour Parking" 1000 1);
      ("2", product "2 Hour Parking" 2000 2);
      ("5", product "5 Hour Parking" 4000 5);
      ("10", product "10 Hour Parking" 9000 10);
      ("24", product "24 Hour Parking" 19900 24) ].

(** [PARKING_PRODUCTS[key]] for any value used as a key. *)
Definition lookup_product (key : value) : completion value :=
  cbind (to_string key) (fun k => Returns (get PARKING_PRODUCTS k)).

(** [v.toString()]. *)
Definition call_toString (v : value) : completion string :=
  match v with
  | VUndefined =>
      Throws (TypeError "Cannot read properties of undefined (reading 'toString')")
  | VNull =>
      Throws (TypeError "Cannot read properties of null (reading 'toString')")
  | VObj o =>
      match o !! "toString" with
      | Some _ => Throws (TypeError "product.hours.toString is not a function")
      | None => Returns "[object Object]"
      end
  | _ => to_string v
  end.

(** [a || b] on values. *)
Definition or_else (a : value) (b : completion value) : completion value :=
  if truthy a then Returns a else b.

(** The parameters of [stripeClient.checkout.sessions.create]. *)
Definition session_params (env : gmap string string)
    (productId vehicleData successUrl cancelUrl product : value)
  : completion value :=
  name ← member product "name";
  hours ← member product "hours";
  hours_text ← to_string hours;
  plural ← gt hours 1;
  plateNumber ← member vehicleData "plateNumber";
  ownerName ← member vehicleData "ownerName";
  vehicleModel ← member vehicleData "vehicleModel";
  hours_string ← call_toString hours;
  price ← member product "price";
  success_url ← or_else successUrl
    (frontend ← to_string (getenv env "FRONTEND_URL");
     Returns (VStr (frontend
                    +:+ "?payment=success&session_id={CHECKOUT_SESSION_ID}")));
  cancel_url ← or_else cancelUrl
    (frontend ← to_string (getenv env "FRONTEND_URL");
     Returns (VStr (frontend +:+ "?payment=cancelled")));
  Returns
    (object
       [ ("payment_method_types", VArr [VStr "card"]);
         ("line_items",
          VArr [ object
                   [ ("price_data",
                      object
                        [ ("currency", VStr "inr");
                          ("product_data",
                           object
                             [ ("name", name);
                               ("description",
                                VStr ("Prepaid parking for " +:+ hours_text
                                      +:+ " hour"
                                      +:+ (if plural : bool then "s" else "")));
                               ("metadata",
                                object
                                  [ ("plateNumber", plateNumber);
                                    ("ownerName", ownerName);
                                    ("vehicleModel", vehicleModel);
                                    ("hours", VStr hours_string) ]) ]);
                          ("unit_amount", price) ]);
                     ("quantity", VNum 1) ] ]);
         ("mode", VStr "payment");
         ("success_url", success_url);
         ("cancel_url", cancel_url);
         ("metadata",
          object [ ("plateNumber", plateNumber);
                   ("ownerName", ownerName);
                   ("vehicleModel", vehicleModel);
                   ("hours", VStr hours_string);
                   ("productId", productId) ]) ]).

(** POST /create-checkout-session. *)
Definition create_checkout_session (env : gmap string string)
    (body : gmap string value) : prog effect response :=
  try_catch
    (let productId := get body "productId" in
     let vehicleData := get body "vehicleData" in
     let successUrl := get body "successUrl" in
     let cancelUrl := get body "cancelUrl" in
     known ← (if truthy productId
              then found ← lift (lookup_product productId); Ret (truthy found)
              else Ret false);
     if negb known then
       Ret (json 400 (object [ ("error", VStr "Invalid product ID") ]))
     else
       described ←
         (if truthy vehicleData then
            plateNumber ← lift (member vehicleData "plateNumber");
            if truthy plateNumber then
              ownerName ← lift (member vehicleData "ownerName");
              Ret (truthy ownerName)
            else Ret false
          else Ret false);
       if negb described then
         Ret (json 400 (object [ ("error", VStr "Vehicle data is required") ]))
       else
         product ← lift (lookup_product productId);
         params ← lift (session_params env productId vehicleData
                          successUrl cancelUrl product);
         session ← await (SessionsCreate params);
         Ret (json 200 (object [ ("sessionId", get session "id");
                                 ("url", get session "url");
                                 ("productInfo", product) ])))
    (fun error =>
       _ ← trigger (ConsoleError [ VStr "Error creating checkout session:";
                                   VObj error ]);
       Ret (json 500 (object [ ("error", get error "message") ]))).

(** GET /products/:id. *)
Definition get_product (id : string) : prog effect response :=
  let product := get PARKING_PRODUCTS id in
  if negb (truthy product) then
    Ret (json 404 (object [ ("error", VStr "Product not found") ]))
  else
    price ← lift (member product "price");
    rupees ← lift (div price 100);
    Ret (json 200
           (VObj ({[ "priceFormatted" := VStr ("â‚¹" +:+ to_fixed rupees 2) ]}
                  ∪ (spread product ∪ {[ "id" := VStr id ]})))).

(** GET /verify-session/:sessionId. *)
Definition verify_session (sessionId : string) : prog effect response :=
  try_catch
    (session ← await (SessionsRetrieve sessionId);
     if strict_eq_str (get session "payment_status") "paid" then
       Ret (json 200
              (object
                 [ ("success", VBool true);
                   ("session",
                    object [ ("id", get session "id");
                             ("payment_status", get session "payment_status");
                             ("amount_total", get session "amount_total");
                             ("metadata", get session "metadata") ]) ]))
     else
       Ret (json 200
              (object [ ("success", VBool false);
                        ("payment_status", get session "payment_status") ])))
    (fun error =>
       _ ← trigger (ConsoleError [ VStr "Error verifying session:"; VObj error ]);
       Ret (json 500 (object [ ("error", get error "message") ]))).

(** The [switch (event.type)] of the webhook: logging only.  It stands
    outside every [try]: what reading a property of the event throws
    escapes the handler. *)
Definition dispatch (event : value) : prog effect unit :=
  type ← lift (member event "type");
  if strict_eq_str type "checkout.session.completed" then
    data ← lift (member event "data");
    session ← lift (member data "object");
    id ← lift (member session "id");
    _ ← trigger (ConsoleLog [ VStr "Payment successful for session:"; id ]);
    metadata ← lift (member session "metadata");
    trigger (ConsoleLog [ VStr "Vehicle data:"; metadata ])
  else if strict_eq_str type "payment_intent.succeeded" then
    data ← lift (member event "data");
    paymentIntent ← lift (member data "object");
    id ← lift (member paymentIntent "id");
    trigger (ConsoleLog [ VStr "Payment intent succeeded:"; id ])
  else
    type ← lift (member event "type");
    text ← lift (to_string type);
    trigger (ConsoleLog [ VStr ("Unhandled event type " +:+ text) ]).

(** POST /webhook; [body] is the raw request body. *)
Definition webhook (env : gmap string string) (headers : gmap string value)
    (body : value) : prog effect response :=
  let sig := get headers "stripe-signature" in
  constructed ←
    trigger (ConstructEvent body sig (getenv env "STRIPE_WEBHOOK_SECRET"));
  match constructed with
  | Throws err =>
      _ ← trigger (ConsoleError [ VStr "Webhook signature verification failed:";
                                  get err "message" ]);
      message ← lift (to_string (get err "message"));
      Ret (send 400 ("Webhook Error: " +:+ message))
  | Returns event =>
      _ ← dispatch event;
      Ret (json 200 (object [ ("received", VBool true) ]))
  end.

End Stripe.

(** * src/index.js and src/unnamed/part_001: the CORS policy and the error handler *)

Module Cors.
Import JS Http.
Local Open Scope Z_scope.

(** [new Error(message)]. *)
Definition Error (message : string) : exn :=
  {[ "message" := VStr message ]}.

(** [elems.indexOf(v)] on an array of Strings: the first index whose
    element is strictly equal to [v], or [-1]. *)
Fixpoint indexOf_from (from : Z) (elems : list string) (v : value) : Z :=
  match elems with
  | [] => -1
  | s :: rest =>
      if strict_eq_str v s then from else indexOf_from (from + 1) rest v
  end.
Definition indexOf (elems : list string) (v : value) : Z :=
  indexOf_from 0 elems v.

Definition allowedOrigins : list string :=
  [ "http://localhost:8081";
    "http://localhost:8080";
    "http://localhost:5173";
    "https://trackmypark.vercel.app";
    "https://trackmypark.com";
    "https://www.trackmypark.com";
    "https://trackmypark.vercel.app/" ].

(** The [origin] option given to [cors] in src/index.js, applied to the
    Origin header of the request ([undefined] when there is none):
    [Returns true] is [callback(null, true)], [Throws err] is
    [callback(err)]. *)
Definition origin (env : gmap string string) (origin : value)
  : completion bool :=
  if negb (truthy origin) then Returns true
  else if strict_eq_str (Razorpay.getenv env "NODE_ENV") "development"
  then Returns true
  else if negb (indexOf allowedOrigins origin =? -1)%Z then Returns true
  else Throws (Error "Not allowed by CORS").

(** The same option in the second copy of the server in
    src/unnamed/part_001 (the first copy gives [cors] a fixed string). *)
Definition legacy_allowedOrigins : list string :=
  [ "http://localhost:8081";
    "http://localhost:5173";
    "https://trackmypark.vercel.app";
    "https://trackmypark.com";
    "https://trackmypark.vercel.app/" ].

Definition legacy_origin (env : gmap string string) (origin : value)
  : completion bool :=
  if negb (truthy origin) then Returns true
  else if strict_eq_str (Razorpay.getenv env "NODE_ENV") "development"
  then Returns true
  else if negb (indexOf legacy_allowedOrigins origin =? -1)%Z then Returns true
  else Throws (Error "Not allowed by CORS").

(** The global error handler of src/index.js, [app.use((err, req, res,
    next) => ...)]. *)
Definition error_handler (env : gmap string string) (err : exn) : response :=
  json 500
    (object [ ("error", VStr "Internal server error");
              ("message",
               if strict_eq_str (Razorpay.getenv env "NODE_ENV") "development"
               then get err "message"
               else VStr "Something went wrong!") ]).

(** A GET or POST request on its way through [app.use(cors({origin}))] to
    its [route]: the [cors] middleware passes the error of the origin
    function to [next], and Express hands such an error to the error
    handler without running the route. *)
Definition through_cors {E : Type -> Type} (env : gmap string string)
    (origin_header : value) (route : prog E response) : prog E response :=
  match origin env origin_header with
  | Returns _ => route
  | Throws err => Ret (error_handler env err)
  end.

End Cors.

(** * src/index.js: the diagnostic routes *)

Module Diagnostics.
Import JS Http.

Inductive effect : Type -> Type :=
| OrdersAll (params : value) : effect (completion (gmap string value)).
  (** [razorpay.orders.all(params)], settled *)

(** What [res.status(code).json(content)] is given: here the status is
    whatever value the handler computes ([res.json(content)] alone sends
    with status 200). *)
Record reply : Type := Reply { code : value; content : value }.

Definition split_at (n : nat) (s : string) : string * string :=
  (String.substring 0 n s, String.substring n (String.length s - n) s).

(** The high surrogate of the code point written in the four bytes [s],
    in three bytes. *)
Definition high_surrogate (s : string) : string :=
  let byte (i : nat) : Z :=
    match String.get i s with
    | Some b => Z.of_nat (nat_of_ascii b)
    | None => 0%Z
    end in
  let cp : Z :=
    Z.lor (Z.shiftl (Z.land (byte 0%nat) 7%Z) 18%Z)
      (Z.lor (Z.shiftl (Z.land (byte 1%nat) 63%Z) 12%Z)
         (Z.lor (Z.shiftl (Z.land (byte 2%nat) 63%Z) 6%Z) (Z.land (byte 3%nat) 63%Z))) in
  let high : Z := (55296 + Z.shiftr (cp - 65536) 10)%Z in
  of_bytes [ 237%nat;
             Z.to_nat (Z.lor 128 (Z.land (Z.shiftr high 6) 63))%Z;
             Z.to_nat (Z.lor 128 (Z.land high 63))%Z ].

(** [s.substring(0, n)]: the first [n] UTF-16 code units of [s].  A String
    is held as its UTF-8 bytes: a sequence of one, two or three bytes is
    one code unit and a sequence of four bytes is a surrogate pair; of a
    pair cut in the middle the high surrogate stays. *)
Fixpoint substring_0 (n : nat) (s : string) : string :=
  match n, s with
  | O, _ | _, EmptyString => ""
  | S n', String lead _ =>
      let c := nat_of_ascii lead in
      if (c <? 240)%nat then
        let '(one, rest) :=
          split_at (if (c <? 192)%nat then 1 else if (c <? 224)%nat then 2 else 3) s in
        one +:+ substring_0 n' rest
      else
        let '(four, rest) := split_at 4 s in
        match n' with
        | O => high_surrogate four
        | S n'' => four +:+ substring_0 n'' rest
        end
  end.

(** [process.env.RAZORPAY_KEY_ID ?
     `${process.env.RAZORPAY_KEY_ID.substring(0, 10)}...` : null] *)
Definition key_id (env : gmap string string) : value :=
  match env !! "RAZORPAY_KEY_ID" with
  | Some key =>
      if truthy (VStr key) then VStr (substring_0 10 key +:+ "...") else VNull
  | None => VNull
  end.

(** GET /api/test-razorpay-connectivity; [razorpay] is the module
    variable. *)
Definition test_connectivity (env : gmap string string) (razorpay : value)
  : prog effect reply :=
  try_catch
    (if negb (truthy razorpay) then
       Ret (Reply (VNum 500)
              (object [ ("success", VBool false);
                        ("error", VStr "Payment system not initialized");
                        ("message",
                         VStr "Razorpay instance is not properly initialized") ]))
     else
       orders ← await (OrdersAll (object [ ("count", VNum 1) ]));
       Ret (Reply (VNum 200)
              (object [ ("success", VBool true);
                        ("message", VStr "Razorpay API connectivity verified");
                        ("key_id", key_id env);
                        ("orders_count", get orders "count") ])))
    (fun error =>
       let statusCode := get error "statusCode" in
       let errorMessage :=
         if strict_eq_num statusCode 401 then
           "Razorpay authentication failed - check your credentials"
         else if strict_eq_num statusCode 403 then
           "Razorpay access forbidden - check your permissions"
         else "Failed to connect to Razorpay API" in
       Ret (Reply (if truthy statusCode then statusCode else VNum 500)
              (object [ ("success", VBool false);
                        ("error", VStr errorMessage);
                        ("message", get error "message");
                        ("statusCode", statusCode) ]))).

(** GET /api/test-razorpay. *)
Definition test_razorpay (env : gmap string string) (razorpay : value)
  : prog effect response :=
  try_catch
    (if negb (truthy razorpay) then
       Ret (json 500
              (object [ ("error", VStr "Payment system not initialized");
                        ("message",
                         VStr "Razorpay instance is not properly initialized") ]))
     else
       Ret (json 200
              (object [ ("status", VStr "success");
                        ("message",
                         VStr "Razorpay instance is properly initialized");
                        ("key_id", key_id env);
                        ("node_env", Razorpay.getenv env "NODE_ENV") ])))
    (fun error =>
       Ret (json 500
              (object [ ("error", VStr "Failed to test Razorpay connectivity");
                        ("message", get error "message") ]))).

End Diagnostics.

(** * src/unnamed/part_000: the product listing and the health check *)

Module Catalog.
Import JS Http.

Inductive effect : Type -> Type :=
| DateToISOString : effect string.
  (** [new Date().toISOString()] *)

(** [Object.entries(PARKING_PRODUCTS)]: own keys that are array indices
    come first, in ascending numeric order; the five keys of the catalog
    are array indices, and the literal lists them in this order. *)
Definition entries : list (string * value) :=
  [ ("1", Stripe.product "1 Hour Parking" 1000 1);
    ("2", Stripe.product "2 Hour Parking" 2000 2);
    ("5", Stripe.product "5 Hour Parking" 4000 5);
    ("10", Stripe.product "10 Hour Parking" 9000 10);
    ("24", Stripe.product "24 Hour Parking" 19900 24) ].

(** The arrow function mapped over the entries by GET /products. *)
Definition listed (entry : string * value) : completion value :=
  let '(id, product) := entry in
  price ← member product "price";
  rupees ← div price 100;
  Returns (VObj ({[ "priceFormatted" := VStr ("â‚¹" +:+ to_fixed rupees 2) ]}
                 ∪ (spread product ∪ {[ "id" := VStr id ]}))).

(** GET /products. *)
Definition get_products : prog effect response :=
  products ← lift (mapM listed entries);
  Ret (json 200 (object [ ("products", VArr products) ])).

(** GET /health. *)
Definition health : prog effect response :=
  timestamp ← trigger DateToISOString;
  Ret (json 200
         (object [ ("status", VStr "OK");
                   ("timestamp", VStr timestamp);
                   ("products",
                    VNum (Z_to_float (Z.of_nat (length (entries.*1))))) ])).

End Catalog.

(** * Vocabulary of the properties, and concrete requests and worlds *)

Module Examples.
Import JS Http.

(** The fields POST /api/verify-razorpay-payment requires. *)
Definition required_fields : list string :=
  [ "razorpay_order_id"; "razorpay_payment_id"; "bookingData"; "spotId";
    "userId" ].

(** A request body with [razorpay_signature] set to [sig], or removed. *)
Definition with_signature (sig : option value) (body : gmap string value)
  : gmap string value :=
  match sig with
  | Some s => <[ "razorpay_signature" := s ]> body
  | None => delete "razorpay_signature" body
  end.

(** [needle] occurs in [text]. *)
Fixpoint mentions (needle text : string) : bool :=
  match strip_prefix needle text with
  | Some _ => true
  | None =>
      match text with
      | EmptyString => false
      | String _ rest => mentions needle rest
      end
  end.

(** A value that converts to a String. *)
Definition printable (v : value) : bool :=
  match to_string v with
  | Returns _ => true
  | Throws _ => false
  end.

(** A JSON object that does not: [{"toString": 1}]. *)
Definition unprintable : value := object [ ("toString", VNum 1) ].

(** What the [catch] blocks answer to the [TypeError] of a conversion. *)
Definition not_converted : value :=
  VStr "Cannot convert object to primitive value".

(** "A finite positive number", as claim C6 words it. *)
Definition finite_positive (v : value) : bool :=
  match v with
  | VNum x => PrimFloat.is_finite x && PrimFloat.ltb 0 x
  | _ => false
  end.


Definition booking : value :=
  object [ ("slot", VStr "A1"); ("hours", VNum 2) ].

Definition verify_body : gmap string value :=
  list_to_map [ ("razorpay_order_id", VStr "order_1");
                ("razorpay_payment_id", VStr "pay_1");
                ("bookingData", booking);
                ("spotId", VStr "spot_7");
                ("userId", VStr "user_3") ].

Definition order_body (amount : value) : gmap string value :=
  list_to_map [ ("amount", amount); ("spotName", VStr "A1");
                ("duration", VStr "2h") ].

(** A Razorpay instance, as [startup] leaves it in the module variable. *)
Definition client : value := VObj ∅.

Definition clock : Z := 1700000000000.

(** A healthy gateway: the order created is the order asked for. *)
Definition created (options : value) : gmap string value :=
  <[ "id" := VStr "order_1" ]> (spread options).

Definition healthy : world Razorpay.effect :=
  fun X call =>
    match call in Razorpay.effect X return X with
    | Razorpay.DateNow => clock
    | Razorpay.OrdersCreate options => Returns (created options)
    end.

(** A gateway that rejects every order with [error]. *)
Definition failing (error : exn) : world Razorpay.effect :=
  fun X call =>
    match call in Razorpay.effect X return X with
    | Razorpay.DateNow => clock
    | Razorpay.OrdersCreate _ => Throws error
    end.

Definition legacy_healthy : world RazorpayLegacy.effect :=
  fun X call =>
    match call in RazorpayLegacy.effect X return X with
    | RazorpayLegacy.DateNow => clock
    | RazorpayLegacy.OrdersCreate options => Returns (created options)
    end.

Definition legacy_failing (error : exn) : world RazorpayLegacy.effect :=
  fun X call =>
    match call in RazorpayLegacy.effect X return X with
    | RazorpayLegacy.DateNow => clock
    | RazorpayLegacy.OrdersCreate _ => Throws error
    end.

Definition stripe_env : gmap string string :=
  list_to_map [ ("FRONTEND_URL", "https://trackmypark.com");
                ("STRIPE_WEBHOOK_SECRET", "whsec_test") ].

(** A Stripe SDK whose session calls settle as [session] and whose
    [constructEvent] completes as [constructed]. *)
Definition stripe_world (session : completion (gmap string value))
    (constructed : completion value) : world Stripe.effect :=
  fun X call =>
    match call in Stripe.effect X return X with
    | Stripe.SessionsCreate _ => session
    | Stripe.SessionsRetrieve _ => session
    | Stripe.ConstructEvent _ _ _ => constructed
    | Stripe.ConsoleLog _ => tt
    | Stripe.ConsoleError _ => tt
    end.

(** The calls of the webhook's dispatch: [console.log]. *)
Definition dispatch_log (c : made Stripe.effect) : bool :=
  match c with
  | Made call =>
      match call with
      | Stripe.ConsoleLog _ => true
      | _ => false
      end
  end.

Definition checkout_body (productId : value) : gmap string value :=
  list_to_map
    [ ("productId", productId);
      ("vehicleData",
       object [ ("plateNumber", VStr "MH12AB1234");
                ("ownerName", VStr "A. Driver");
                ("vehicleModel", VStr "Hatchback") ]) ].

Definition paid_session : gmap string value :=
  list_to_map [ ("id", VStr "cs_test_1");
                ("payment_status", VStr "paid");
                ("amount_total", VNum 2000);
                ("metadata", object [ ("plateNumber", VStr "MH12AB1234") ]) ].

(** [undefined] and [null], the values without properties. *)
Definition nullish (v : value) : bool :=
  match v with
  | VUndefined | VNull => true
  | _ => false
  end.

(** The event types the webhook of the Stripe server has a case for. *)
Definition known_event_type (type : value) : bool :=
  strict_eq_str type "checkout.session.completed"
  || strict_eq_str type "payment_intent.succeeded".

(** A [checkout.session.completed] event as Stripe sends it. *)
Definition completed_event : gmap string value :=
  list_to_map [ ("type", VStr "checkout.session.completed");
                ("data", object [ ("object", VObj paid_session) ]) ].

(** The raw body [{QtypeQ:Qcheckout.session.completedQ}], with a double
    quote for every [Q]. *)
Definition bare_event_payload : string :=
  let quote := String (ascii_of_nat 34) EmptyString in
  "{" +:+ quote +:+ "type" +:+ quote +:+ ":" +:+ quote
  +:+ "checkout.session.completed" +:+ quote +:+ "}".

Definition signature_error : exn :=
  {[ "message" :=
       VStr "No signatures found matching the expected signature for payload." ]}.

End Examples.

(** * Further requests and worlds *)

Module Scenarios.
Import JS Http.

(** The error of a gateway that answers 502. *)
Definition bad_gateway : exn :=
  list_to_map [ ("statusCode", VNum 502); ("message", VStr "Bad Gateway") ].

(** An environment with the credentials of the Razorpay server. *)
Definition razorpay_env : gmap string string :=
  list_to_map [ ("RAZORPAY_KEY_ID", "rzp_test_1234567890abcd");
                ("RAZORPAY_SECRET", "s3cr3t");
                ("NODE_ENV", "production") ].

(** The SDK's constructor, returning an instance with no enumerable
    property of interest. *)
Definition new_Razorpay (options : value) : completion (gmap string value) :=
  Returns ∅.

(** [v.key] where [v] is a JSON object, [undefined] elsewhere. *)
Definition field (key : string) (v : value) : value :=
  match v with
  | VObj o => get o key
  | _ => VUndefined
  end.

(** [v[0]] where [v] is a non-empty array, [undefined] elsewhere. *)
Definition first (v : value) : value :=
  match v with
  | VArr (x :: _) => x
  | _ => VUndefined
  end.

(** The calls of the Stripe server to the sessions API of the gateway. *)
Definition session_call (c : made Stripe.effect) : bool :=
  match c with
  | Made call =>
      match call with
      | Stripe.SessionsCreate _ | Stripe.SessionsRetrieve _ => true
      | _ => false
      end
  end.

(** The calls of the Stripe server to the console. *)
Definition console_call (c : made Stripe.effect) : bool :=
  match c with
  | Made call =>
      match call with
      | Stripe.ConsoleLog _ | Stripe.ConsoleError _ => true
      | _ => false
      end
  end.

(** How many of [calls] satisfy [p]. *)
Fixpoint count {E : Type -> Type} (p : made E -> bool) (calls : list (made E))
  : nat :=
  match calls with
  | [] => 0
  | c :: rest => (if p c then 1 else 0) + count p rest
  end.

(** The front end's address as the Stripe server writes it into a
    template literal. *)
Definition frontend (env : gmap string string) : string :=
  match env !! "FRONTEND_URL" with
  | Some url => url
  | None => "undefined"
  end.

(** A String of ASCII characters only. *)
Fixpoint ascii_only (s : string) : bool :=
  match s with
  | EmptyString => true
  | String c rest => (nat_of_ascii c <? 128)%nat && ascii_only rest
  end.

(** What the error handler of src/index.js sends outside development. *)
Definition something_went_wrong : response :=
  json 500 (object [ ("error", VStr "Internal server error");
                     ("message", VStr "Something went wrong!") ]).

(** A Razorpay SDK whose [orders.all] settles as [orders]. *)
Definition diagnostics_world (orders : completion (gmap string value))
  : world Diagnostics.effect :=
  fun X call =>
    match call in Diagnostics.effect X return X with
    | Diagnostics.OrdersAll _ => orders
    end.

(** The error of a gateway that refuses the credentials. *)
Definition unauthorized : exn :=
  list_to_map [ ("statusCode", VNum 401);
                ("message", VStr "Authentication failed") ].

End Scenarios.


(** * Properties *)

Import JS Http Examples Scenarios.

(** ** Conversions *)

(** One step of a handler: the monadic plumbing only, never the numbers. *)
Ltac step :=
  cbn [negb orb andb cbind lift mbind mret prog_bind prog_ret bind try_catch
       completion_bind completion_ret trigger await].

Lemma to_number_to_string (v : value) (x : float) :
  to_number v = Returns x -> exists s, to_string v = Returns s.
Proof.
  destruct v; simpl; eauto; unfold to_number; intros H;
    match type of H with
    | cbind ?c _ = _ => destruct c eqn:E
    end; eauto; discriminate.
Qed.

(** The conversions to String and to Number throw one error only. *)
Lemma to_string_throws (v : value) (e : exn) :
  to_string v = Throws e ->
  e = TypeError "Cannot convert object to primitive value".
Proof.
  revert v e. fix IH 1. intros v e. destruct v as [| | b | x | s | elems | props | b];
    try (simpl; discriminate).
  - simpl. revert e. induction elems as [| x rest IHrest]; intros e; [discriminate |].
    assert (Hfirst : forall e',
               match x with
               | VUndefined | VNull => Returns ""
               | _ => to_string x
               end = Throws e' ->
               e' = TypeError "Cannot convert object to primitive value").
    { intros e' H. apply (IH x). destruct x; try discriminate; exact H. }
    destruct rest as [| y rest]; [apply Hfirst |].
    destruct (match x with
              | VUndefined | VNull => Returns ""
              | _ => to_string x
              end) as [s | e'] eqn:E.
    + cbn [cbind]. intros H.
      match type of H with
      | cbind ?c _ = _ => destruct c as [t | e''] eqn:E'; [discriminate |]
      end.
      cbn [cbind] in H. injection H as <-. by apply IHrest.
    + cbn [cbind]. intros [= <-]. by apply Hfirst.
  - simpl. destruct (props !! "toString"); [by intros [= <-] | discriminate].
  - destruct b; simpl; discriminate.
Qed.

Lemma to_number_throws (v : value) (e : exn) :
  to_number v = Throws e ->
  e = TypeError "Cannot convert object to primitive value".
Proof.
  intros H. destruct (to_string v) as [s | e'] eqn:E.
  - destruct v; unfold to_number in H; try discriminate;
      rewrite E in H; discriminate.
  - destruct v; unfold to_number in H; try discriminate;
      rewrite E in H; injection H as <-; by apply to_string_throws in E.
Qed.

Lemma printable_to_string (v : value) :
  printable v = true <-> exists s, to_string v = Returns s.
Proof.
  unfold printable. destruct (to_string v); split; eauto; try discriminate.
  by intros [s Hs].
Qed.

(** What converts to a Number converts to a String. *)
Lemma to_number_printable (v : value) (x : float) :
  to_number v = Returns x -> printable v = true.
Proof.
  intros H. apply printable_to_string. by eapply to_number_to_string.
Qed.

(** A template literal is evaluated when all its values convert, and
    throws the error of a conversion otherwise. *)
Lemma template_printable (vs : list value) :
  forallb printable vs = true -> template vs = Returns tt.
Proof.
  induction vs as [| v vs IH]; [reflexivity |]. cbn [forallb template].
  intros [Hv Hvs]%andb_prop. apply printable_to_string in Hv as [s ->].
  by apply IH.
Qed.

Lemma template_cases (vs : list value) :
  (template vs = Returns tt /\ forallb printable vs = true)
  \/ (template vs = Throws (TypeError "Cannot convert object to primitive value")
      /\ forallb printable vs = false).
Proof.
  induction vs as [| v vs IH]; [by left |]. cbn [forallb template].
  unfold printable at 1 3. destruct (to_string v) as [s | e] eqn:E; cbn [cbind andb].
  - exact IH.
  - right. by rewrite (to_string_throws v e E).
Qed.

(** A status code that is not there is not printed. *)
Lemma TypeError_statusCode (message : string) :
  get (TypeError message) "statusCode" = VUndefined
  /\ get (TypeError message) "code" = VUndefined
  /\ get (TypeError message) "message" = VStr message.
Proof.
  unfold get, TypeError. rewrite !lookup_singleton_ne by done.
  by rewrite lookup_singleton_eq.
Qed.

(** ** Payment verification (all three copies of the Razorpay server) *)

Lemma get_with_signature sig body key :
  key ≠ "razorpay_signature" ->
  get (with_signature sig body) key = get body key.
Proof.
  intros Hne. unfold get, with_signature. destruct sig.
  - by rewrite lookup_insert_ne.
  - by rewrite lookup_delete_ne.
Qed.

Section VerifyPayment.

Variable body : gmap string value.

Let razorpay_order_id := get body "razorpay_order_id".
Let razorpay_payment_id := get body "razorpay_payment_id".
Let bookingData := get body "bookingData".
Let spotId := get body "spotId".
Let userId := get body "userId".

Let logged := [ razorpay_order_id; razorpay_payment_id; spotId; userId ].

Let present :=
  truthy razorpay_order_id && truthy razorpay_payment_id
  && truthy bookingData && truthy spotId && truthy userId.

(** The three answers of the verification handler, the same in all three
    copies: when a logged id does not convert to a String the [catch]
    block answers 500; otherwise the answer is the 400 for a missing field
    or the success object. *)
Lemma verify_payment_answer :
  let answer :=
    if negb (forallb printable logged) then
      json 500 (object [ ("error", VStr "Failed to verify payment");
                         ("message", not_converted) ])
    else if negb present then
      json 400 (object [ ("error", VStr "Missing required fields") ])
    else
      json 200 (object [ ("success", VBool true);
                         ("paymentId", razorpay_payment_id);
                         ("orderId", razorpay_order_id);
                         ("bookingData", bookingData) ]) in
  Razorpay.verify_payment body = Ret answer
  /\ RazorpayLegacy.verify_payment body = Ret answer.
Proof.
  unfold Razorpay.verify_payment, RazorpayLegacy.verify_payment.
  fold razorpay_order_id razorpay_payment_id bookingData spotId userId.
  fold logged.
  destruct (template_cases logged) as [[-> Hlog] | [-> Hlog]]; rewrite Hlog;
    step; [| by split].
  assert (Hone : template [razorpay_payment_id] = Returns tt).
  { apply template_printable. cbn [forallb]. unfold logged in Hlog.
    cbn [forallb] in Hlog. by destruct (printable razorpay_payment_id),
      (printable razorpay_order_id). }
  unfold present.
  destruct (truthy razorpay_order_id), (truthy razorpay_payment_id),
    (truthy bookingData), (truthy spotId), (truthy userId);
    step; rewrite ?Hone; by split.
Qed.

End VerifyPayment.

(** A verification request whose order id, payment id, booking data, spot
    id and user id are all truthy, and whose logged ids convert to
    Strings, is answered with [{success: true, paymentId, orderId,
    bookingData}], whatever [razorpay_signature] is and also when it is
    absent; the handler is a program without any external call, so
    nothing is verified. *)
Lemma verify_payment_ignores_signature
    (body : gmap string value) (sig : option value) :
  (forall key, key ∈ required_fields -> truthy (get body key) = true) ->
  forallb printable [ get body "razorpay_order_id";
                      get body "razorpay_payment_id";
                      get body "spotId"; get body "userId" ] = true ->
  let answer :=
    json 200 (object [ ("success", VBool true);
                       ("paymentId", get body "razorpay_payment_id");
                       ("orderId", get body "razorpay_order_id");
                       ("bookingData", get body "bookingData") ]) in
  Razorpay.verify_payment (with_signature sig body) = Ret answer
  /\ RazorpayLegacy.verify_payment (with_signature sig body) = Ret answer.
Proof.
  intros Hall Hlog answer.
  assert (Hfield : forall key, In key required_fields ->
             get (with_signature sig body) key = get body key
             /\ truthy (get body key) = true).
  { intros key Hin. split; [| by apply Hall, list_elem_of_In].
    apply get_with_signature. intros ->. simpl in Hin. intuition discriminate. }
  destruct (Hfield "razorpay_order_id") as [E1 T1]; [simpl; tauto |].
  destruct (Hfield "razorpay_payment_id") as [E2 T2]; [simpl; tauto |].
  destruct (Hfield "bookingData") as [E3 T3]; [simpl; tauto |].
  destruct (Hfield "spotId") as [E4 T4]; [simpl; tauto |].
  destruct (Hfield "userId") as [E5 T5]; [simpl; tauto |].
  pose proof (verify_payment_answer (with_signature sig body)) as H.
  cbv zeta in H. rewrite E1, E2, E3, E4, E5, T1, T2, T3, T4, T5, Hlog in H.
  exact H.
Qed.

(** C1: a logged id that does not convert fails the verification.  The
    body has all five required fields truthy, with the JSON object
    [{"toString": 1}] as [spotId]: in all three copies the template
    literal printed at the head of the [try] block throws, and the answer
    is the 500 of the [catch] block instead of the success object. *)
Theorem unprintable_id_fails_verification :
  let body := <[ "spotId" := unprintable ]> verify_body in
  let answer :=
    json 500 (object [ ("error", VStr "Failed to verify payment");
                       ("message", not_converted) ]) in
  forallb (fun key => truthy (get body key)) required_fields = true
  /\ Razorpay.verify_payment body = Ret answer
  /\ RazorpayLegacy.verify_payment body = Ret answer.
Proof. repeat split; vm_compute; reflexivity. Qed.

(** A verification request in which one of the five required fields is
    absent or falsy, and whose logged ids convert to Strings, is answered
    400 [{error: "Missing required fields"}]; the handler makes no
    external call. *)
Lemma verify_payment_missing_field (body : gmap string value) (key : string) :
  key ∈ required_fields ->
  truthy (get body key) = false ->
  forallb printable [ get body "razorpay_order_id";
                      get body "razorpay_payment_id";
                      get body "spotId"; get body "userId" ] = true ->
  let answer := json 400 (object [ ("error", VStr "Missing required fields") ]) in
  (Razorpay.verify_payment body = Ret answer
   /\ forall w, run w (Razorpay.verify_payment body) = ([], Returns answer))
  /\ (RazorpayLegacy.verify_payment body = Ret answer
      /\ forall w, run w (RazorpayLegacy.verify_payment body)
                   = ([], Returns answer)).
Proof.
  intros Hin Hfalsy Hlog answer. apply list_elem_of_In in Hin. simpl in Hin.
  pose proof (verify_payment_answer body) as H. cbv zeta in H.
  rewrite Hlog in H. cbn [negb] in H.
  assert (Hpresent :
            truthy (get body "razorpay_order_id")
            && truthy (get body "razorpay_payment_id")
            && truthy (get body "bookingData") && truthy (get body "spotId")
            && truthy (get body "userId") = false).
  { destruct Hin as [<- | [<- | [<- | [<- | [<- | []]]]]]; rewrite Hfalsy;
      repeat match goal with
             | |- context [truthy ?v] => destruct (truthy v)
             end; reflexivity. }
  rewrite Hpresent in H. cbn [negb] in H. destruct H as [-> ->].
  repeat split; reflexivity.
Qed.

(** C9: a logged id that does not convert hides a missing field.  The
    body has no [userId], and the JSON object [{"toString": 1}] as
    [spotId]: in all three copies the template literal printed before the
    required fields are checked throws, and the answer is the 500 of the
    [catch] block instead of the 400 for a missing field. *)
Theorem unprintable_id_hides_missing_field :
  let body := <[ "spotId" := unprintable ]> (delete "userId" verify_body) in
  let answer :=
    json 500 (object [ ("error", VStr "Failed to verify payment");
                       ("message", not_converted) ]) in
  truthy (get body "userId") = false
  /\ Razorpay.verify_payment body = Ret answer
  /\ RazorpayLegacy.verify_payment body = Ret answer.
Proof. repeat split; vm_compute; reflexivity. Qed.

(** C10. On every request body the verification handler is a program
    without any external call: it returns at once an answer that the body
    determines, the same in all three copies: the 500 of the [catch]
    block, the 400 for a missing field, or the success answer, which
    carries the caller's [razorpay_payment_id], [razorpay_order_id] and
    [bookingData] as they came. *)
Theorem verify_payment_is_pure (body : gmap string value) :
  exists answer : response,
    Razorpay.verify_payment body = Ret answer
    /\ RazorpayLegacy.verify_payment body = Ret answer
    /\ (forall w, run w (Razorpay.verify_payment body) = ([], Returns answer))
    /\ (forall w, run w (RazorpayLegacy.verify_payment body)
                  = ([], Returns answer))
    /\ (answer = json 500 (object [ ("error", VStr "Failed to verify payment");
                                    ("message", not_converted) ])
        \/ answer = json 400 (object [ ("error", VStr "Missing required fields") ])
        \/ answer = json 200
                      (object [ ("success", VBool true);
                                ("paymentId", get body "razorpay_payment_id");
                                ("orderId", get body "razorpay_order_id");
                                ("bookingData", get body "bookingData") ])).
Proof.
  destruct (verify_payment_answer body) as [-> ->].
  eexists. repeat split.
  repeat match goal with
         | |- context [if ?c then _ else _] => destruct c
         end; tauto.
Qed.


(** ** Comparisons of Numbers *)

Lemma SFeqb_refl (a : spec_float) : a <> S754_nan -> SFeqb a a = true.
Proof.
  intros Ha. unfold SFeqb.
  destruct a as [s | s | | s m e]; try done; cbn [SFcompare].
  - by destruct s.
  - destruct s; rewrite Z.compare_refl, Pos.compare_cont_refl; reflexivity.
Qed.

Lemma SFcompare_antisym (a b : spec_float) (c : comparison) :
  SFcompare a b = Some c -> SFcompare b a = Some (CompOpp c).
Proof.
  destruct a as [s | s | | s m e], b as [s' | s' | | s' m' e'];
    cbn [SFcompare]; try discriminate; intros [= <-];
    try (by destruct s); try (by destruct s'); try (by destruct s, s');
    try done.
  destruct s, s'; try done.
  - rewrite (Z.compare_antisym e e').
    destruct (e ?= e')%Z; cbn [CompOpp]; try done.
    by rewrite (Pos.compare_cont_antisym m m' Eq).
  - rewrite (Z.compare_antisym e e').
    destruct (e ?= e')%Z; cbn [CompOpp]; try done.
    by rewrite (Pos.compare_cont_antisym m m' Eq).
Qed.

(** [0 < x]: [x] is not NaN, not zero and not [<= 0]. *)
Lemma positive_number (x : float) :
  PrimFloat.ltb 0 x = true ->
  PrimFloat.is_nan x = false
  /\ PrimFloat.is_zero x = false
  /\ PrimFloat.leb x 0 = false.
Proof.
  unfold PrimFloat.is_zero, PrimFloat.is_nan.
  rewrite ltb_spec, leb_spec, !FloatAxioms.eqb_spec.
  change (Prim2SF 0) with (S754_zero false).
  change (Prim2SF zero) with (S754_zero false).
  unfold SFltb, SFleb, SFeqb.
  destruct (Prim2SF x) as [s | s | | s m e]; cbn [SFcompare]; try discriminate.
  - destruct s; [discriminate | done].
  - destruct s; [discriminate |]. intros _. repeat split.
    by rewrite Z.compare_refl, Pos.compare_cont_refl.
Qed.

(** [50 <= x]: [x] is positive and not [< 50]. *)
Lemma at_least_minimum (x : float) :
  PrimFloat.leb 50 x = true ->
  PrimFloat.ltb 0 x = true /\ PrimFloat.ltb x 50 = false.
Proof.
  rewrite leb_spec, !ltb_spec. change (Prim2SF 0) with (S754_zero false).
  unfold SFleb, SFltb. intros H.
  destruct (SFcompare (Prim2SF 50) (Prim2SF x)) as [c |] eqn:E; [| discriminate].
  rewrite (SFcompare_antisym _ _ _ E). split; [| by destruct c].
  change (Prim2SF 50) with (S754_finite false 7036874417766400 (-47)) in E.
  destruct (Prim2SF x) as [s | s | | s m e]; cbn [SFcompare] in *; try done.
  - injection E as <-. discriminate.
  - destruct s; [| done]. injection E as <-. discriminate.
  - destruct s; [| done]. injection E as <-. discriminate.
Qed.

(** A value that converts to a positive number is truthy. *)
Lemma positive_truthy (v : value) (x : float) :
  to_number v = Returns x -> PrimFloat.ltb 0 x = true -> truthy v = true.
Proof.
  intros Hnumber Hpositive.
  destruct v as [| | b | y | s | | |]; cbn [truthy]; try done; cbn in Hnumber.
  - by injection Hnumber as <-.
  - by injection Hnumber as <-.
  - by destruct b; injection Hnumber as <-.
  - injection Hnumber as ->.
    by destruct (positive_number x Hpositive) as (-> & -> & _).
  - destruct (String.eqb_spec s ""); [| done]. subst s.
    by injection Hnumber as <-.
Qed.


(** ** Order creation in src/index.js *)

(** The [catch] block of src/index.js answers the [TypeError] of a
    conversion, and the one of reading [substring] of an unset key id,
    with the generic 500. *)
Lemma order_failed_TypeError (message : string) :
  Razorpay.order_failed (TypeError message)
  = Ret (json 500 (object [ ("error", VStr "Failed to create payment order");
                            ("message", VStr message);
                            ("statusCode", VUndefined) ])).
Proof.
  unfold Razorpay.order_failed.
  destruct (TypeError_statusCode message) as (-> & -> & ->). reflexivity.
Qed.

Section CreateOrder.

Variable env : gmap string string.
Variable razorpay : value.
Variable body : gmap string value.

Let amount := get body "amount".
Let spotName := get body "spotName".
Let duration := get body "duration".

(** A value of the request that does not convert to a String stops the
    handler at its first [console.log]. *)
Lemma create_order_unprintable :
  forallb printable [amount; spotName; duration] = false ->
  Razorpay.create_order env razorpay body
  = Ret (json 500 (object [ ("error", VStr "Failed to create payment order");
                            ("message", not_converted);
                            ("statusCode", VUndefined) ])).
Proof.
  intros Hlog. unfold Razorpay.create_order. fold amount spotName duration.
  destruct (template_cases [amount; spotName; duration]) as [[_ H] | [-> _]];
    [congruence |].
  step. apply order_failed_TypeError.
Qed.

Hypothesis Hlog : forallb printable [amount; spotName; duration] = true.

Lemma create_order_missing :
  truthy amount && truthy spotName && truthy duration = false ->
  Razorpay.create_order env razorpay body
  = Ret (json 400 (object [ ("error", VStr "Missing required fields") ])).
Proof.
  unfold Razorpay.create_order. fold amount spotName duration.
  rewrite (template_printable _ Hlog). step.
  destruct (truthy amount), (truthy spotName), (truthy duration);
    try discriminate; reflexivity.
Qed.

Variable x : float.
Hypothesis Hamount : truthy amount = true.
Hypothesis HspotName : truthy spotName = true.
Hypothesis Hduration : truthy duration = true.
Hypothesis Hnumber : to_number amount = Returns x.

Lemma create_order_invalid :
  PrimFloat.is_nan x || PrimFloat.leb x 0 = true ->
  Razorpay.create_order env razorpay body
  = Ret (json 400
           (object [ ("error",
                      VStr "Invalid amount. Amount must be a positive number.") ])).
Proof.
  intros Hbad. unfold Razorpay.create_order. fold amount spotName duration.
  rewrite (template_printable _ Hlog). step.
  rewrite Hamount, HspotName, Hduration. unfold isNaN, le. rewrite Hnumber.
  step. destruct (PrimFloat.is_nan x); step; [reflexivity |].
  simpl in Hbad. rewrite Hbad. reflexivity.
Qed.

Hypothesis Hnan : PrimFloat.is_nan x = false.
Hypothesis Hpositive : PrimFloat.leb x 0 = false.

Lemma create_order_below (given : string) :
  to_string amount = Returns given ->
  PrimFloat.ltb x 50 = true ->
  Razorpay.create_order env razorpay body
  = Ret (json 400
           (object [ ("error",
                      VStr ("Minimum booking amount is ₹50. Your amount: ₹"
                            +:+ given));
                     ("minimumAmount", VNum 50) ])).
Proof.
  intros Hgiven Hbelow. unfold Razorpay.create_order.
  fold amount spotName duration.
  rewrite (template_printable _ Hlog). step.
  rewrite Hamount, HspotName, Hduration. unfold isNaN, le, lt. rewrite Hnumber.
  step. rewrite Hnan. step. rewrite Hpositive. step. rewrite Hbelow. step.
  cbn [template]. rewrite Hgiven. reflexivity.
Qed.

Hypothesis Henough : PrimFloat.ltb x 50 = false.

(** A valid request and no client: the clock is read and nothing else. *)
Lemma create_order_uninitialised (w : world Razorpay.effect) :
  truthy razorpay = false ->
  run w (Razorpay.create_order env razorpay body)
  = ([ Made Razorpay.DateNow ],
     Returns
       (json 500
          (object [ ("error", VStr "Payment system not initialized");
                    ("message",
                     VStr "Razorpay instance is not properly initialized") ]))).
Proof.
  intros Hrazorpay. unfold Razorpay.create_order.
  fold amount spotName duration.
  rewrite (template_printable _ Hlog). step.
  rewrite Hamount, HspotName, Hduration. unfold isNaN, le, lt, mul.
  rewrite Hnumber. step. rewrite Hnan. step. rewrite Hpositive. step.
  rewrite Henough. step. cbn [run]. rewrite Hrazorpay. reflexivity.
Qed.

Hypothesis Hrazorpay : truthy razorpay = true.

(** A valid request, a client and no key id in the environment: printing
    the key id throws before the gateway is called. *)
Lemma create_order_without_key_id (w : world Razorpay.effect) :
  env !! "RAZORPAY_KEY_ID" = None ->
  run w (Razorpay.create_order env razorpay body)
  = ([ Made Razorpay.DateNow ],
     Returns
       (json 500
          (object [ ("error", VStr "Failed to create payment order");
                    ("message",
                     VStr "Cannot read properties of undefined (reading 'substring')");
                    ("statusCode", VUndefined) ]))).
Proof.
  intros Hkey. unfold Razorpay.create_order.
  fold amount spotName duration.
  rewrite (template_printable _ Hlog). step.
  rewrite Hamount, HspotName, Hduration. unfold isNaN, le, lt, mul.
  rewrite Hnumber. step. rewrite Hnan. step. rewrite Hpositive. step.
  rewrite Henough. step. cbn [run]. rewrite Hrazorpay.
  unfold Razorpay.key_id_prefix. rewrite Hkey. step.
  by rewrite order_failed_TypeError.
Qed.

Variable key_id : string.
Hypothesis Hkey : env !! "RAZORPAY_KEY_ID" = Some key_id.

(** An accepted request: the clock is read, the gateway is called once
    with the rounded amount, and the answer follows the gateway's: the
    200 with the order's fields when the order resolves and its fields
    convert to Strings for the console, the 500 of a failed conversion
    when they do not, and the answer of the [catch] block when the
    gateway rejects. *)
Lemma create_order_accepted (w : world Razorpay.effect) :
  let options :=
    Razorpay.order_options (PrimFloat.mul x 100) (w _ Razorpay.DateNow)
      spotName duration in
  run w (Razorpay.create_order env razorpay body)
  = ([ Made Razorpay.DateNow; Made (Razorpay.OrdersCreate options) ],
     match w _ (Razorpay.OrdersCreate options) with
     | Returns order =>
         if forallb printable [ get order "id"; get order "amount";
                                get order "currency"; get order "receipt" ]
         then
           Returns (json 200 (object [ ("orderId", get order "id");
                                       ("amount", get order "amount");
                                       ("currency", get order "currency") ]))
         else
           Returns (json 500
                      (object [ ("error", VStr "Failed to create payment order");
                                ("message", not_converted);
                                ("statusCode", VUndefined) ]))
     | Throws error => snd (run w (Razorpay.order_failed error))
     end).
Proof.
  intros options. unfold Razorpay.create_order.
  fold amount spotName duration.
  rewrite (template_printable _ Hlog). step.
  rewrite Hamount, HspotName, Hduration. unfold isNaN, le, lt, mul.
  rewrite Hnumber. step. rewrite Hnan. step. rewrite Hpositive. step.
  rewrite Henough. step. cbn [run]. rewrite Hrazorpay.
  unfold Razorpay.key_id_prefix. rewrite Hkey. step. cbn [run].
  fold options. destruct (w _ (Razorpay.OrdersCreate options)) as [order | error].
  - step. cbn [template forallb]. unfold printable.
    destruct (to_string (get order "id")) as [? | e] eqn:E1; step;
      [| rewrite (to_string_throws _ _ E1), order_failed_TypeError;
         reflexivity].
    destruct (to_string (get order "amount")) as [? | e] eqn:E2; step;
      [| rewrite (to_string_throws _ _ E2), order_failed_TypeError;
         reflexivity].
    destruct (to_string (get order "currency")) as [? | e] eqn:E3; step;
      [| rewrite (to_string_throws _ _ E3), order_failed_TypeError;
         reflexivity].
    destruct (to_string (get order "receipt")) as [? | e] eqn:E4; step;
      [| rewrite (to_string_throws _ _ E4), order_failed_TypeError;
         reflexivity].
    reflexivity.
  - step. unfold Razorpay.order_failed.
    destruct (truthy (get error "statusCode"));
      [destruct (template [get error "statusCode"]) |]; step;
      try reflexivity;
      repeat match goal with
             | |- context [if ?c then _ else _] => destruct c; step
             end;
      try reflexivity.
    all: destruct (ge (get error "statusCode") 500) as [[] |]; reflexivity.
Qed.

End CreateOrder.

(** The logged values of an order request convert when its amount
    converts to a Number and its spot name and duration convert to
    Strings. *)
Lemma order_printable (body : gmap string value) (x : float) :
  to_number (get body "amount") = Returns x ->
  printable (get body "spotName") = true ->
  printable (get body "duration") = true ->
  forallb printable [ get body "amount"; get body "spotName";
                      get body "duration" ] = true.
Proof.
  intros Hnumber Hs Hd. cbn [forallb].
  by rewrite (to_number_printable _ _ Hnumber), Hs, Hd.
Qed.

(** Once [startup] has let the server listen, the module variable
    [razorpay] holds an object: the guard of the order handler against an
    uninitialised client never fires. *)
Lemma startup_initialises (env : gmap string string)
    (new_Razorpay : value -> completion (gmap string value)) (razorpay : value) :
  Razorpay.startup env new_Razorpay = Some razorpay ->
  truthy razorpay = true
  /\ truthy (Razorpay.getenv env "RAZORPAY_KEY_ID") = true
  /\ truthy (Razorpay.getenv env "RAZORPAY_SECRET") = true.
Proof.
  unfold Razorpay.startup.
  destruct (truthy (Razorpay.getenv env "RAZORPAY_KEY_ID")); [| discriminate].
  destruct (truthy (Razorpay.getenv env "RAZORPAY_SECRET")); [| discriminate].
  cbn [negb orb]. destruct (new_Razorpay _); [| discriminate].
  intros [= <-]. repeat split.
Qed.

(** The [catch] block of src/index.js classifies a gateway failure by
    [error.statusCode] and [error.code], in this order: 401, 400, network
    unreachable, upstream status from 500, anything else; before that it
    prints the status code when it is truthy, which takes its conversion
    to a String. *)
Lemma order_failed_classifies (error : exn) :
  let statusCode := get error "statusCode" in
  let code := get error "code" in
  let answer (message : string) (status : nat) : prog Razorpay.effect response :=
    Ret (json status (object [ ("error", VStr message);
                               ("message", get error "message");
                               ("statusCode", statusCode) ])) in
  printable statusCode = true ->
  (strict_eq_num statusCode 401 = true ->
   Razorpay.order_failed error
   = answer "Authentication failed with payment provider. Please check credentials."
       500)
  /\ (strict_eq_num statusCode 401 = false ->
      strict_eq_num statusCode 400 = true ->
      Razorpay.order_failed error
      = answer "Invalid request to payment provider. Please check the request data."
          400)
  /\ (strict_eq_num statusCode 401 = false ->
      strict_eq_num statusCode 400 = false ->
      strict_eq_str code "ENOTFOUND" || strict_eq_str code "ECONNREFUSED" = true ->
      Razorpay.order_failed error
      = answer "Unable to connect to payment provider. Please try again later."
          500)
  /\ (strict_eq_num statusCode 401 = false ->
      strict_eq_num statusCode 400 = false ->
      strict_eq_str code "ENOTFOUND" || strict_eq_str code "ECONNREFUSED" = false ->
      ge statusCode 500 = Returns true ->
      Razorpay.order_failed error
      = answer "Payment provider is temporarily unavailable. Please try again later."
          503)
  /\ (strict_eq_num statusCode 401 = false ->
      strict_eq_num statusCode 400 = false ->
      strict_eq_str code "ENOTFOUND" || strict_eq_str code "ECONNREFUSED" = false ->
      ge statusCode 500 = Returns false ->
      Razorpay.order_failed error = answer "Failed to create payment order" 500).
Proof.
  intros statusCode code answer Hprintable. unfold Razorpay.order_failed.
  fold statusCode code.
  assert (Hprint : (if truthy statusCode
                    then lift (template [statusCode])
                    else Ret tt) = (Ret tt : prog Razorpay.effect unit)).
  { destruct (truthy statusCode); [| reflexivity].
    rewrite template_printable; [reflexivity |]. cbn [forallb].
    by rewrite Hprintable. }
  rewrite Hprint. step.
  repeat split; intros; repeat match goal with
                               | H : _ = _ |- _ => rewrite H; clear H
                               end; reflexivity.
Qed.

(** ** Order creation in the earlier copies (src/unnamed/part_001) *)

Section LegacyCreateOrder.

Variable body : gmap string value.

Let amount := get body "amount".
Let spotName := get body "spotName".
Let duration := get body "duration".

Lemma legacy_create_order_unprintable :
  forallb printable [amount; spotName; duration] = false ->
  RazorpayLegacy.create_order body
  = Ret (json 500 (object [ ("error", VStr "Failed to create payment order");
                            ("message", not_converted) ])).
Proof.
  intros Hlog. unfold RazorpayLegacy.create_order.
  fold amount spotName duration.
  destruct (template_cases [amount; spotName; duration]) as [[_ H] | [-> _]];
    [congruence |].
  reflexivity.
Qed.

Hypothesis Hlog : forallb printable [amount; spotName; duration] = true.

Lemma legacy_create_order_missing :
  truthy amount && truthy spotName && truthy duration = false ->
  RazorpayLegacy.create_order body
  = Ret (json 400 (object [ ("error", VStr "Missing required fields") ])).
Proof.
  unfold RazorpayLegacy.create_order. fold amount spotName duration.
  rewrite (template_printable _ Hlog). step.
  destruct (truthy amount), (truthy spotName), (truthy duration);
    try discriminate; reflexivity.
Qed.

Variable x : float.
Hypothesis Hamount : truthy amount = true.
Hypothesis HspotName : truthy spotName = true.
Hypothesis Hduration : truthy duration = true.
Hypothesis Hnumber : to_number amount = Returns x.

Lemma legacy_create_order_below (given : string) :
  to_string amount = Returns given ->
  PrimFloat.ltb x 50 = true ->
  RazorpayLegacy.create_order body
  = Ret (json 400
           (object [ ("error",
                      VStr ("Minimum booking amount is ₹50. Your amount: ₹"
                            +:+ given));
                     ("minimumAmount", VNum 50) ])).
Proof.
  intros Hgiven Hbelow. unfold RazorpayLegacy.create_order.
  fold amount spotName duration.
  rewrite (template_printable _ Hlog). step.
  rewrite Hamount, HspotName, Hduration. unfold lt. rewrite Hnumber.
  step. rewrite Hbelow. step. cbn [template]. rewrite Hgiven. reflexivity.
Qed.

Hypothesis Henough : PrimFloat.ltb x 50 = false.

(** An accepted request: the amount goes to the gateway unrounded, and
    every failure, of the gateway or of printing the order, gets the same
    answer. *)
Lemma legacy_create_order_accepted (w : world RazorpayLegacy.effect) :
  let options :=
    object [ ("amount", VNum (PrimFloat.mul x 100));
             ("currency", VStr "INR");
             ("receipt",
              VStr ("receipt_order_"
                    +:+ number_to_string
                          (Z_to_float (w _ RazorpayLegacy.DateNow))));
             ("notes", object [ ("spotName", spotName);
                                ("duration", duration) ]) ] in
  run w (RazorpayLegacy.create_order body)
  = ([ Made RazorpayLegacy.DateNow;
       Made (RazorpayLegacy.OrdersCreate options) ],
     match w _ (RazorpayLegacy.OrdersCreate options) with
     | Returns order =>
         if forallb printable [ get order "id"; get order "amount";
                                get order "currency" ]
         then
           Returns (json 200 (object [ ("orderId", get order "id");
                                       ("amount", get order "amount");
                                       ("currency", get order "currency") ]))
         else
           Returns (json 500
                      (object [ ("error", VStr "Failed to create payment order");
                                ("message", not_converted) ]))
     | Throws error =>
         Returns (json 500
                    (object [ ("error", VStr "Failed to create payment order");
                              ("message", get error "message") ]))
     end).
Proof.
  intros options. unfold RazorpayLegacy.create_order.
  fold amount spotName duration.
  rewrite (template_printable _ Hlog). step.
  rewrite Hamount, HspotName, Hduration. unfold lt, mul. rewrite Hnumber.
  step. rewrite Henough. step. cbn [run]. fold options.
  destruct (w _ (RazorpayLegacy.OrdersCreate options)) as [order | error];
    [| reflexivity].
  step. cbn [template forallb]. unfold printable.
  destruct (to_string (get order "id")) as [? | e] eqn:E1; step;
    [| by rewrite (to_string_throws _ _ E1)].
  destruct (to_string (get order "amount")) as [? | e] eqn:E2; step;
    [| by rewrite (to_string_throws _ _ E2)].
  destruct (to_string (get order "currency")) as [? | e] eqn:E3; step;
    [| by rewrite (to_string_throws _ _ E3)].
  reflexivity.
Qed.

End LegacyCreateOrder.


(** ** [Math.round] yields integers *)

Section Rounding.

Local Open Scope Z_scope.







End Rounding.


(** ** The claims about order creation *)

(** C2: the earlier copies of the server do not classify.  The gateway
    rejects a well-formed order with status 400: the copies of
    src/unnamed/part_001 answer 500 with the generic message, where
    src/index.js passes the 400 on. *)
Theorem legacy_gateway_failure_unclassified :
  let error : exn := {[ "statusCode" := VNum 400 ]} in
  snd (run (legacy_failing error)
         (RazorpayLegacy.create_order (order_body (VNum 100))))
  = Returns (json 500
               (object [ ("error", VStr "Failed to create payment order");
                         ("message", VUndefined) ]))
  /\ snd (run (failing error)
            (Razorpay.create_order razorpay_env client (order_body (VNum 100))))
     = Returns (json 400
                  (object
                     [ ("error",
                        VStr "Invalid request to payment provider. Please check the request data.");
                       ("message", VUndefined);
                       ("statusCode", VNum 400) ])).
Proof. split; vm_compute; reflexivity. Qed.

(** A falsy value converts to a String. *)
Lemma falsy_printable (v : value) : truthy v = false -> printable v = true.
Proof. by destruct v as [| | [] | | | | |]. Qed.

(** C3 fails as stated: an amount of 0 is below the minimum, and the
    answer is the 400 for missing fields, which does not state the minimum;
    so is, in src/index.js, the answer to a negative amount. *)
Lemma minimum_not_stated_for_zero_amount :
  lt (get (order_body (VNum 0)) "amount") 50 = Returns true
  /\ Razorpay.create_order razorpay_env client (order_body (VNum 0))
     = Ret (json 400 (object [ ("error", VStr "Missing required fields") ]))
  /\ mentions "50" "Missing required fields" = false
  /\ lt (get (order_body (VNum (-5))) "amount") 50 = Returns true
  /\ Razorpay.create_order razorpay_env client (order_body (VNum (-5)))
     = Ret (json 400
              (object [ ("error",
                         VStr "Invalid amount. Amount must be a positive number.") ]))
  /\ mentions "50" "Invalid amount. Amount must be a positive number." = false.
Proof. repeat split; vm_compute; reflexivity. Qed.

(** C3 (amended).  In all three copies of the server, for a request whose
    [spotName] and [duration] convert to Strings: when the amount converts
    to a number below 50 the answer has status 400 and no external call is
    made; when moreover the amount is positive and [spotName] and
    [duration] are present, the answer states the minimum,
    ["Minimum booking amount is ₹50. Your amount: ₹<amount>"] with
    [minimumAmount: 50]; and a request with an amount of exactly 50 and
    both fields present reads the clock and calls the gateway with 5000
    paise (in src/index.js with its client and key id in place). *)
Theorem minimum_amount_check
    (env : gmap string string) (razorpay : value) (body : gmap string value)
    (x : float) :
  let amount := get body "amount" in
  let spotName := get body "spotName" in
  let duration := get body "duration" in
  to_number amount = Returns x ->
  printable spotName = true ->
  printable duration = true ->
  (PrimFloat.ltb x 50 = true ->
   (exists r,
       Razorpay.create_order env razorpay body = Ret r /\ status r = 400)
   /\ (exists r, RazorpayLegacy.create_order body = Ret r /\ status r = 400))
  /\ (truthy spotName = true -> truthy duration = true ->
      PrimFloat.ltb 0 x = true -> PrimFloat.ltb x 50 = true ->
      exists given,
        to_string amount = Returns given
        /\ let answer :=
             json 400
               (object [ ("error",
                          VStr ("Minimum booking amount is ₹50. Your amount: ₹"
                                +:+ given));
                         ("minimumAmount", VNum 50) ]) in
           Razorpay.create_order env razorpay body = Ret answer
           /\ RazorpayLegacy.create_order body = Ret answer)
  /\ (truthy spotName = true -> truthy duration = true ->
      truthy razorpay = true -> is_Some (env !! "RAZORPAY_KEY_ID") ->
      x = 50%float ->
      (forall w,
          fst (run w (Razorpay.create_order env razorpay body))
          = [ Made Razorpay.DateNow;
              Made (Razorpay.OrdersCreate
                      (Razorpay.order_options 5000 (w _ Razorpay.DateNow)
                         spotName duration)) ])
      /\ (forall w,
             exists options,
               fst (run w (RazorpayLegacy.create_order body))
               = [ Made RazorpayLegacy.DateNow;
                   Made (RazorpayLegacy.OrdersCreate (VObj options)) ]
               /\ options !! "amount" = Some (VNum 5000))).
Proof.
  intros amount spotName duration Hnumber Hps Hpd.
  destruct (to_number_to_string _ _ Hnumber) as [given Hgiven].
  pose proof (order_printable body x Hnumber Hps Hpd) as Hlog.
  split; [| split].
  - intros Hbelow.
    destruct (truthy amount && truthy spotName && truthy duration) eqn:Hall.
    + apply andb_prop in Hall as [Hall Hd]. apply andb_prop in Hall as [Ha Hs].
      split.
      * destruct (PrimFloat.is_nan x || PrimFloat.leb x 0) eqn:Hbad.
        -- eexists. split; [by eapply create_order_invalid | reflexivity].
        -- apply orb_false_elim in Hbad as [Hnan Hpos].
           eexists. split; [by eapply create_order_below | reflexivity].
      * eexists. split; [by eapply legacy_create_order_below | reflexivity].
    + split; eexists.
      * split; [by apply create_order_missing | reflexivity].
      * split; [by apply legacy_create_order_missing | reflexivity].
  - intros Hs Hd Hpositive Hbelow.
    pose proof (positive_truthy _ _ Hnumber Hpositive) as Ha.
    destruct (positive_number x Hpositive) as (Hnan & _ & Hpos).
    exists given. split; [done |]. split.
    + by eapply create_order_below.
    + by eapply legacy_create_order_below.
  - intros Hs Hd Hr [key_id Hkey] ->.
    pose proof (positive_truthy _ _ Hnumber eq_refl) as Ha. split; intros w.
    + by rewrite (create_order_accepted env razorpay body Hlog 50 Ha Hs Hd
                    Hnumber eq_refl eq_refl eq_refl Hr key_id Hkey).
    + eexists.
      rewrite (legacy_create_order_accepted body Hlog 50 Ha Hs Hd Hnumber);
        [| reflexivity].
      split; reflexivity.
Qed.

Lemma minimum_amount_check_witness :
  Razorpay.create_order razorpay_env client (order_body (VNum 49))
  = Ret (json 400
           (object [ ("error",
                      VStr "Minimum booking amount is ₹50. Your amount: ₹49");
                     ("minimumAmount", VNum 50) ]))
  /\ fst (run healthy
            (Razorpay.create_order razorpay_env client (order_body (VNum 50))))
     = [ Made Razorpay.DateNow;
         Made (Razorpay.OrdersCreate
                 (Razorpay.order_options 5000 clock (VStr "A1") (VStr "2h"))) ].
Proof.
  split.
  - destruct (minimum_amount_check razorpay_env client (order_body (VNum 49))
                49 eq_refl eq_refl eq_refl)
      as (_ & Hstated & _).
    specialize (Hstated eq_refl eq_refl eq_refl eq_refl).
    destruct Hstated as (given & Hgiven & Hcurrent & _).
    vm_compute in Hgiven. injection Hgiven as <-. exact Hcurrent.
  - destruct (minimum_amount_check razorpay_env client (order_body (VNum 50))
                50 eq_refl eq_refl eq_refl)
      as (_ & _ & Hcalled).
    specialize (Hcalled eq_refl eq_refl eq_refl (mk_is_Some _ _ eq_refl) eq_refl).
    destruct Hcalled as [Hcurrent _]. exact (Hcurrent healthy).
Defined.


(** In src/index.js a valid request whose gateway call fails is answered
    by the [catch] block, which [order_failed_classifies] describes. *)
Lemma create_order_gateway_failure
    (env : gmap string string) (razorpay : value) (body : gmap string value)
    (x : float) (w : world Razorpay.effect) (error : exn) :
  truthy (get body "spotName") = true ->
  truthy (get body "duration") = true ->
  printable (get body "spotName") = true ->
  printable (get body "duration") = true ->
  truthy razorpay = true ->
  is_Some (env !! "RAZORPAY_KEY_ID") ->
  to_number (get body "amount") = Returns x ->
  PrimFloat.leb 50 x = true ->
  w _ (Razorpay.OrdersCreate
         (Razorpay.order_options (PrimFloat.mul x 100) (w _ Razorpay.DateNow)
            (get body "spotName") (get body "duration")))
  = Throws error ->
  run w (Razorpay.create_order env razorpay body)
  = ([ Made Razorpay.DateNow;
       Made (Razorpay.OrdersCreate
               (Razorpay.order_options (PrimFloat.mul x 100)
                  (w _ Razorpay.DateNow)
                  (get body "spotName") (get body "duration"))) ],
     snd (run w (Razorpay.order_failed error))).
Proof.
  intros Hs Hd Hps Hpd Hr [key_id Hkey] Hnumber Hminimum Hw.
  destruct (at_least_minimum x Hminimum) as [Hpositive Henough].
  pose proof (positive_truthy _ _ Hnumber Hpositive) as Ha.
  destruct (positive_number x Hpositive) as (Hnan & _ & Hpos).
  pose proof (order_printable body x Hnumber Hps Hpd) as Hlog.
  rewrite (create_order_accepted env razorpay body Hlog x Ha Hs Hd Hnumber
             Hnan Hpos Henough Hr key_id Hkey w).
  by rewrite Hw.
Qed.

(** C4: the earlier copies of the server do not round.  For an amount of
    100.004 the copies of src/unnamed/part_001 send 10000.4 to the gateway
    and answer with it, where src/index.js sends and answers 10000. *)
Theorem legacy_amount_sent_unrounded :
  run legacy_healthy (RazorpayLegacy.create_order (order_body (VNum 100.004)))
  = ([ Made RazorpayLegacy.DateNow;
       Made (RazorpayLegacy.OrdersCreate
               (object [ ("amount", VNum 10000.4);
                         ("currency", VStr "INR");
                         ("receipt", VStr "receipt_order_1700000000000");
                         ("notes", object [ ("spotName", VStr "A1");
                                            ("duration", VStr "2h") ]) ])) ],
     Returns (json 200 (object [ ("orderId", VStr "order_1");
                                 ("amount", VNum 10000.4);
                                 ("currency", VStr "INR") ])))
  /\ run healthy
       (Razorpay.create_order razorpay_env client (order_body (VNum 100.004)))
     = ([ Made Razorpay.DateNow;
          Made (Razorpay.OrdersCreate
                  (object [ ("amount", VNum 10000);
                            ("currency", VStr "INR");
                            ("receipt", VStr "receipt_order_1700000000000");
                            ("notes", object [ ("spotName", VStr "A1");
                                               ("duration", VStr "2h") ]) ])) ],
        Returns (json 200 (object [ ("orderId", VStr "order_1");
                                    ("amount", VNum 10000);
                                    ("currency", VStr "INR") ])))
  /\ PrimFloat.eqb 10000.4 (Math_round 10000.4) = false.
Proof. repeat split; vm_compute; reflexivity. Qed.

(** C6 fails as stated: positive infinity (the JSON number [1e999]) is
    present and is not a finite positive number, and src/index.js takes it
    to the gateway. *)
Lemma infinite_amount_reaches_gateway :
  finite_positive (get (order_body (VNum infinity)) "amount") = false
  /\ run healthy
       (Razorpay.create_order razorpay_env client (order_body (VNum infinity)))
     = ([ Made Razorpay.DateNow;
          Made (Razorpay.OrdersCreate
                  (Razorpay.order_options infinity clock (VStr "A1")
                     (VStr "2h"))) ],
        Returns (json 200 (object [ ("orderId", VStr "order_1");
                                    ("amount", VNum infinity);
                                    ("currency", VStr "INR") ]))).
Proof. split; vm_compute; reflexivity. Qed.

(** C6 (amended).  In src/index.js a request whose [spotName] and
    [duration] convert to Strings and whose amount is falsy, or converts
    to NaN, or converts to a number not greater than 0, is answered with
    status 400 without any external call; when [amount], [spotName] and
    [duration] are all present the answer is
    ["Invalid amount. Amount must be a positive number."]. *)
Theorem invalid_amount_rejected
    (env : gmap string string) (razorpay : value) (body : gmap string value) :
  let amount := get body "amount" in
  printable (get body "spotName") = true ->
  printable (get body "duration") = true ->
  (truthy amount = false
   \/ exists x, to_number amount = Returns x
                /\ PrimFloat.is_nan x || PrimFloat.leb x 0 = true) ->
  (exists r,
      Razorpay.create_order env razorpay body = Ret r
      /\ status r = 400
      /\ forall w,
           run w (Razorpay.create_order env razorpay body) = ([], Returns r))
  /\ (truthy amount = true ->
      truthy (get body "spotName") = true ->
      truthy (get body "duration") = true ->
      Razorpay.create_order env razorpay body
      = Ret (json 400
               (object
                  [ ("error",
                     VStr "Invalid amount. Amount must be a positive number.") ]))).
Proof.
  intros amount Hps Hpd Hbad.
  assert (Hlog : forallb printable [ amount; get body "spotName";
                                     get body "duration" ] = true).
  { cbn [forallb]. rewrite Hps, Hpd.
    destruct Hbad as [Hfalsy | (x & Hnumber & _)].
    - by rewrite (falsy_printable _ Hfalsy).
    - by rewrite (to_number_printable _ _ Hnumber). }
  assert (Hmissing :
            truthy amount && truthy (get body "spotName")
            && truthy (get body "duration") = false ->
            exists r,
              Razorpay.create_order env razorpay body = Ret r
              /\ status r = 400
              /\ forall w,
                   run w (Razorpay.create_order env razorpay body)
                   = ([], Returns r)).
  { intros Hm. eexists. rewrite (create_order_missing env razorpay body Hlog Hm).
    repeat split. }
  destruct Hbad as [Hfalsy | (x & Hnumber & Hbad)].
  - split.
    + apply Hmissing. fold amount. by rewrite Hfalsy.
    + fold amount. rewrite Hfalsy. discriminate.
  - split.
    + destruct (truthy amount && truthy (get body "spotName")
                && truthy (get body "duration")) eqn:Hall; [| by apply Hmissing].
      apply andb_prop in Hall as [Hall Hd]. apply andb_prop in Hall as [Ha Hs].
      eexists.
      rewrite (create_order_invalid env razorpay body Hlog x Ha Hs Hd Hnumber
                 Hbad).
      repeat split.
    + intros Ha Hs Hd. by eapply create_order_invalid.
Qed.

Lemma invalid_amount_rejected_witness :
  Razorpay.create_order razorpay_env client (order_body (VStr "abc"))
  = Ret (json 400
           (object
              [ ("error",
                 VStr "Invalid amount. Amount must be a positive number.") ])).
Proof.
  refine (proj2 (invalid_amount_rejected razorpay_env client
                   (order_body (VStr "abc")) eq_refl eq_refl _)
            eq_refl eq_refl eq_refl).
  right. exists nan. split; reflexivity.
Defined.


(** ** The Stripe server (src/unnamed/part_000) *)

Lemma strict_eq_str_true (v : value) (s : string) :
  strict_eq_str v s = true <-> v = VStr s.
Proof.
  destruct v; simpl; try (split; [discriminate | intros [=]]).
  rewrite String.eqb_eq. split; [by intros -> | by intros [= ->]].
Qed.

(** C5 (amended).  When [constructEvent] throws (the signature does not
    verify against the webhook secret and the raw body), the webhook
    answers 400 with the plain text ["Webhook Error: <message>"], and the
    only calls made are the verification and one [console.error]: the
    dispatch is not reached.  When it returns an event whose [type] can be
    read, with, for the two types the handler knows, a [data.object] that
    is neither [undefined] nor [null], and with, for any other type, a
    type that converts to a String, the answer is [{received: true}],
    whatever the type, after the dispatch has logged. *)
Theorem webhook_verification_gates_dispatch
    (env : gmap string string) (headers : gmap string value) (body : value)
    (w : world Stripe.effect) :
  let verification :=
    Stripe.ConstructEvent body (get headers "stripe-signature")
      (Stripe.getenv env "STRIPE_WEBHOOK_SECRET") in
  (forall err message,
      w _ verification = Throws err ->
      to_string (get err "message") = Returns message ->
      run w (Stripe.webhook env headers body)
      = ([ Made verification;
           Made (Stripe.ConsoleError
                   [ VStr "Webhook signature verification failed:";
                     get err "message" ]) ],
         Returns (send 400 ("Webhook Error: " +:+ message))))
  /\ (forall event type,
         w _ verification = Returns event ->
         member event "type" = Returns type ->
         (known_event_type type = true ->
          exists data subject,
            member event "data" = Returns data
            /\ member data "object" = Returns subject
            /\ nullish subject = false) ->
         (known_event_type type = false -> printable type = true) ->
         exists logs,
           run w (Stripe.webhook env headers body)
           = (Made verification :: logs,
              Returns (json 200 (object [ ("received", VBool true) ])))
           /\ logs ≠ []
           /\ forallb dispatch_log logs = true).
Proof.
  intros verification. split.
  - intros err message Hw Hmessage. unfold Stripe.webhook. step. cbn [run].
    fold verification. rewrite Hw. step. cbn [run]. rewrite Hmessage.
    reflexivity.
  - intros event type Hw Htype Hdata Hother. unfold Stripe.webhook. step.
    cbn [run]. fold verification. rewrite Hw. unfold Stripe.dispatch.
    rewrite Htype. step. unfold known_event_type in Hdata, Hother.
    assert (Hid : forall subject key,
               nullish subject = false ->
               exists v, member subject key = Returns v).
    { intros [| | | | | | | []] key; try discriminate; cbn; eauto. }
    destruct (strict_eq_str type "checkout.session.completed").
    + destruct Hdata as (data & subject & Hd & Hs & Hsubject); [done |].
      destruct (Hid subject "id" Hsubject) as [id Ei].
      destruct (Hid subject "metadata" Hsubject) as [metadata Em].
      rewrite Hd. step. rewrite Hs. step. rewrite Ei. step. cbn [run].
      rewrite Em. step. cbn [run].
      eexists. split; [reflexivity |]. by split.
    + destruct (strict_eq_str type "payment_intent.succeeded").
      * destruct Hdata as (data & subject & Hd & Hs & Hsubject); [done |].
        destruct (Hid subject "id" Hsubject) as [id Ei].
        rewrite Hd. step. rewrite Hs. step. rewrite Ei. step. cbn [run].
        eexists. split; [reflexivity |]. by split.
      * apply printable_to_string in Hother as [text Et]; [| done].
        step. rewrite Et. step. cbn [run]. eexists. split; [reflexivity |]. by split.
Qed.

Lemma webhook_verification_gates_dispatch_witness :
  exists logs,
    run (stripe_world (Returns paid_session) (Returns (VObj completed_event)))
      (Stripe.webhook stripe_env {[ "stripe-signature" := VStr "t=1,v1=00" ]}
         (VStr "signed bytes"))
    = (Made (Stripe.ConstructEvent (VStr "signed bytes") (VStr "t=1,v1=00")
               (VStr "whsec_test")) :: logs,
       Returns (json 200 (object [ ("received", VBool true) ])))
    /\ logs ≠ []
    /\ forallb dispatch_log logs = true.
Proof.
  refine (proj2 (webhook_verification_gates_dispatch stripe_env
                   {[ "stripe-signature" := VStr "t=1,v1=00" ]}
                   (VStr "signed bytes")
                   (stripe_world (Returns paid_session)
                      (Returns (VObj completed_event))))
            (VObj completed_event) (VStr "checkout.session.completed")
            eq_refl eq_refl _ _).
  - intros _. do 2 eexists. repeat split.
  - discriminate.
Defined.

(** C5 fails as stated: a verified event without [data] is not
    acknowledged.  The event [{"type": "checkout.session.completed"}]
    arrives with a signature that verifies: the dispatch reads
    [event.data.object] outside every [try], the [TypeError] escapes the
    handler, and no response is sent. *)
Lemma verified_event_without_data_is_not_acknowledged :
  let event := object [ ("type", VStr "checkout.session.completed") ] in
  let headers : gmap string value := {[ "stripe-signature" := VStr "t=1,v1=00" ]} in
  run (stripe_world (Returns paid_session) (Returns event))
    (Stripe.webhook stripe_env headers (VStr bare_event_payload))
  = ([ Made (Stripe.ConstructEvent (VStr bare_event_payload)
               (VStr "t=1,v1=00") (VStr "whsec_test")) ],
     Throws (TypeError "Cannot read properties of undefined (reading 'object')")).
Proof. vm_compute. reflexivity. Qed.

(** C7. When the gateway returns the session, the answer is the success
    object with [id], [payment_status], [amount_total] and [metadata] if
    [payment_status] is the string ["paid"], and otherwise
    [{success: false, payment_status}] with the status as the gateway gave
    it; both are sent with status 200. *)
Theorem verify_session_reports_paid
    (sessionId : string) (session : gmap string value)
    (w : world Stripe.effect) :
  w _ (Stripe.SessionsRetrieve sessionId) = Returns session ->
  let payment_status := get session "payment_status" in
  (payment_status = VStr "paid" ->
   run w (Stripe.verify_session sessionId)
   = ([ Made (Stripe.SessionsRetrieve sessionId) ],
      Returns
        (json 200
           (object
              [ ("success", VBool true);
                ("session",
                 object [ ("id", get session "id");
                          ("payment_status", VStr "paid");
                          ("amount_total", get session "amount_total");
                          ("metadata", get session "metadata") ]) ]))))
  /\ (payment_status ≠ VStr "paid" ->
      run w (Stripe.verify_session sessionId)
      = ([ Made (Stripe.SessionsRetrieve sessionId) ],
         Returns (json 200 (object [ ("success", VBool false);
                                     ("payment_status", payment_status) ])))).
Proof.
  intros Hw payment_status. unfold Stripe.verify_session. step. cbn [run].
  rewrite Hw. step. fold payment_status.
  destruct (strict_eq_str payment_status "paid") eqn:Hpaid.
  - apply strict_eq_str_true in Hpaid. split; [| done].
    intros _. rewrite Hpaid. reflexivity.
  - split; [| reflexivity]. intros Heq.
    apply strict_eq_str_true in Heq. congruence.
Qed.

Lemma verify_session_reports_paid_witness :
  run (stripe_world (Returns (<[ "payment_status" := VStr "unpaid" ]> paid_session))
         (Throws signature_error))
    (Stripe.verify_session "cs_test_1")
  = ([ Made (Stripe.SessionsRetrieve "cs_test_1") ],
     Returns (json 200 (object [ ("success", VBool false);
                                 ("payment_status", VStr "unpaid") ]))).
Proof.
  refine (proj2 (verify_session_reports_paid "cs_test_1"
                   (<[ "payment_status" := VStr "unpaid" ]> paid_session)
                   (stripe_world
                      (Returns (<[ "payment_status" := VStr "unpaid" ]> paid_session))
                      (Throws signature_error))
                   eq_refl) _).
  discriminate.
Defined.

(** A product id that is neither a key of the catalog nor the name of a
    member of [Object.prototype] is not found. *)
Lemma get_product_unknown (id : string) :
  Stripe.PARKING_PRODUCTS !! id = None ->
  id ∉ Object_prototype_members ->
  Stripe.get_product id
  = Ret (json 404 (object [ ("error", VStr "Product not found") ])).
Proof.
  intros Hcatalog Hproto. unfold Stripe.get_product, get, inherited.
  rewrite Hcatalog. by rewrite bool_decide_eq_false_2.
Qed.

Lemma create_checkout_session_unknown
    (env : gmap string string) (body : gmap string value) :
  let productId := get body "productId" in
  (truthy productId = false
   \/ exists key, to_string productId = Returns key
                  /\ Stripe.PARKING_PRODUCTS !! key = None
                  /\ key ∉ Object_prototype_members) ->
  Stripe.create_checkout_session env body
  = Ret (json 400 (object [ ("error", VStr "Invalid product ID") ])).
Proof.
  intros productId Hunknown. unfold Stripe.create_checkout_session.
  fold productId. destruct Hunknown as [Hfalsy | (key & Hkey & Hcatalog & Hproto)].
  - rewrite Hfalsy. reflexivity.
  - destruct (truthy productId); [| reflexivity].
    unfold Stripe.lookup_product. rewrite Hkey. step.
    unfold get, inherited. rewrite Hcatalog.
    by rewrite bool_decide_eq_false_2.
Qed.

(** C8: a name inherited from [Object.prototype] passes for a product.
    ["constructor"] is not in the catalog; GET /products/constructor is
    answered 200 with a price of [NaN] instead of 404, and
    POST /create-checkout-session with that product id fails with a
    [TypeError] answered 500 instead of the 400 for an invalid product id
    (the gateway is not called). *)
Theorem inherited_name_passes_for_product :
  Stripe.PARKING_PRODUCTS !! "constructor" = None
  /\ Stripe.get_product "constructor"
     = Ret (json 200 (object [ ("id", VStr "constructor");
                               ("priceFormatted", VStr "â‚¹NaN") ]))
  /\ run (stripe_world (Returns paid_session) (Throws signature_error))
       (Stripe.create_checkout_session stripe_env
          (checkout_body (VStr "constructor")))
     = ([ Made (Stripe.ConsoleError
                  [ VStr "Error creating checkout session:";
                    VObj (TypeError
                            "Cannot read properties of undefined (reading 'toString')") ]) ],
        Returns
          (json 500
             (object
                [ ("error",
                   VStr "Cannot read properties of undefined (reading 'toString')") ]))).
Proof. repeat split; vm_compute; reflexivity. Qed.

(** * Further properties of the handlers *)

(** ** Order creation in src/index.js: the shape of every run *)

(** The [catch] block of the order handler makes no external call, and
    what it answers has status 400, 500 or 503 and carries the message and
    the status code of the error. *)
Lemma order_failed_answer (w : world Razorpay.effect) (error : exn) :
  fst (run w (Razorpay.order_failed error)) = []
  /\ forall answer,
       snd (run w (Razorpay.order_failed error)) = Returns answer ->
       exists message status,
         answer = json status (object [ ("error", VStr message);
                                        ("message", get error "message");
                                        ("statusCode", get error "statusCode") ])
         /\ (status = 400 \/ status = 500 \/ status = 503).
Proof.
  unfold Razorpay.order_failed.
  destruct (truthy (get error "statusCode"));
    [destruct (template [get error "statusCode"]) |]; step;
    try (split; [reflexivity | discriminate]);
    repeat match goal with
           | |- context [if ?c then _ else _] => destruct c; step
           end;
    try (split; [reflexivity |]; intros answer [= <-]; eauto 6).
  all: destruct (ge (get error "statusCode") 500) as [[] |]; step;
    (split; [reflexivity |]); intros answer; try discriminate;
    intros [= <-]; eauto 6.
Qed.

(** It answers whenever the status code of the error converts to a
    number. *)
Lemma order_failed_total (w : world Razorpay.effect) (error : exn) (x : float) :
  to_number (get error "statusCode") = Returns x ->
  exists answer, snd (run w (Razorpay.order_failed error)) = Returns answer.
Proof.
  intros Hx. unfold Razorpay.order_failed, ge. rewrite Hx.
  rewrite (template_printable [get error "statusCode"])
    by (cbn [forallb]; by rewrite (to_number_printable _ _ Hx)).
  destruct (truthy (get error "statusCode")); step;
    repeat match goal with
           | |- context [if ?c then _ else _] => destruct c; step
           end;
    eauto.
Qed.

(** The ways a run of the order handler can go: a validation failure (no
    call); a conversion that throws (no call); an uninitialised client, or
    a key id that is not set (the clock is read); a gateway call. *)
Lemma create_order_cases (env : gmap string string) (razorpay : value)
    (body : gmap string value) (w : world Razorpay.effect) :
  let outcome := run w (Razorpay.create_order env razorpay body) in
  (exists answer, outcome = ([], Returns answer) /\ status answer = 400)
  \/ outcome
     = ([], Returns
              (json 500
                 (object [ ("error", VStr "Failed to create payment order");
                           ("message", not_converted);
                           ("statusCode", VUndefined) ])))
  \/ (truthy razorpay = false
      /\ outcome
         = ([ Made Razorpay.DateNow ],
            Returns
              (json 500
                 (object [ ("error", VStr "Payment system not initialized");
                           ("message",
                            VStr "Razorpay instance is not properly initialized") ]))))
  \/ (truthy razorpay = true
      /\ env !! "RAZORPAY_KEY_ID" = None
      /\ outcome
         = ([ Made Razorpay.DateNow ],
            Returns
              (json 500
                 (object [ ("error", VStr "Failed to create payment order");
                           ("message",
                            VStr "Cannot read properties of undefined (reading 'substring')");
                           ("statusCode", VUndefined) ]))))
  \/ (truthy razorpay = true
      /\ exists options,
           outcome
           = ([ Made Razorpay.DateNow; Made (Razorpay.OrdersCreate options) ],
              match w _ (Razorpay.OrdersCreate options) with
              | Returns order =>
                  if forallb printable [ get order "id"; get order "amount";
                                         get order "currency";
                                         get order "receipt" ]
                  then
                    Returns (json 200 (object [ ("orderId", get order "id");
                                                ("amount", get order "amount");
                                                ("currency", get order "currency") ]))
                  else
                    Returns
                      (json 500
                         (object [ ("error", VStr "Failed to create payment order");
                                   ("message", not_converted);
                                   ("statusCode", VUndefined) ]))
              | Throws error => snd (run w (Razorpay.order_failed error))
              end)).
Proof.
  intros outcome. subst outcome.
  destruct (forallb printable [ get body "amount"; get body "spotName";
                                get body "duration" ]) eqn:Hlog.
  2: { right. left. by rewrite (create_order_unprintable env razorpay body Hlog). }
  destruct (truthy (get body "amount") && truthy (get body "spotName")
            && truthy (get body "duration")) eqn:Hpresent.
  2: { left. rewrite (create_order_missing env razorpay body Hlog Hpresent).
       eauto. }
  apply andb_prop in Hpresent as [Hpresent Hd].
  apply andb_prop in Hpresent as [Ha Hs].
  destruct (to_number (get body "amount")) as [x | e] eqn:Hnumber.
  2: { right. left. apply to_number_throws in Hnumber as Heq. subst e.
       unfold Razorpay.create_order. rewrite (template_printable _ Hlog).
       step. rewrite Ha, Hs, Hd. unfold isNaN. rewrite Hnumber. step.
       by rewrite order_failed_TypeError. }
  destruct (PrimFloat.is_nan x || PrimFloat.leb x 0) eqn:Hbad.
  { left.
    rewrite (create_order_invalid env razorpay body Hlog x Ha Hs Hd Hnumber
               Hbad).
    eauto. }
  apply orb_false_elim in Hbad as [Hnan Hpos].
  destruct (PrimFloat.ltb x 50) eqn:Hbelow.
  { left. destruct (to_number_to_string _ _ Hnumber) as [given Hgiven].
    rewrite (create_order_below env razorpay body Hlog x Ha Hs Hd Hnumber Hnan
               Hpos given Hgiven Hbelow).
    eauto. }
  right. right. destruct (truthy razorpay) eqn:Hr.
  - right. destruct (env !! "RAZORPAY_KEY_ID") as [key_id |] eqn:Hkey.
    + right. split; [reflexivity |]. eexists.
      apply (create_order_accepted env razorpay body Hlog x Ha Hs Hd Hnumber
               Hnan Hpos Hbelow Hr key_id Hkey w).
    + left. split; [reflexivity |]. split; [reflexivity |].
      apply (create_order_without_key_id env razorpay body Hlog x Ha Hs Hd
               Hnumber Hnan Hpos Hbelow Hr w Hkey).
  - left. split; [reflexivity |].
    apply (create_order_uninitialised env razorpay body Hlog x Ha Hs Hd
             Hnumber Hnan Hpos Hbelow w Hr).
Qed.

(** X1: src/index.js answers every order request.  Whatever the
    environment, the body, the client and the gateway do, provided the
    [statusCode] of an error the gateway rejects with converts to a
    number, the handler of POST /api/create-razorpay-order completes with
    a response, and its status is 200, 400, 500 or 503: no exception
    escapes the handler. *)
Theorem create_order_always_answers
    (env : gmap string string) (razorpay : value) (body : gmap string value)
    (w : world Razorpay.effect) :
  (forall options error,
      w _ (Razorpay.OrdersCreate options) = Throws error ->
      exists x, to_number (get error "statusCode") = Returns x) ->
  exists answer,
    snd (run w (Razorpay.create_order env razorpay body)) = Returns answer
    /\ (status answer = 200 \/ status answer = 400 \/ status answer = 500
        \/ status answer = 503).
Proof.
  intros Hgateway.
  destruct (create_order_cases env razorpay body w)
    as [(answer & -> & Hstatus)
       | [-> | [[_ ->] | [(_ & _ & ->) | (_ & options & ->)]]]];
    cbn [snd].
  - eauto 6.
  - eexists. split; [reflexivity |]. cbn. tauto.
  - eexists. split; [reflexivity |]. cbn. tauto.
  - eexists. split; [reflexivity |]. cbn. tauto.
  - destruct (w _ (Razorpay.OrdersCreate options)) as [order | error] eqn:Hw.
    + destruct (forallb printable _);
        eexists; (split; [reflexivity |]); cbn; tauto.
    + destruct (Hgateway _ _ Hw) as [x Hx].
      destruct (order_failed_total w error x Hx) as [answer Hanswer].
      exists answer. split; [exact Hanswer |].
      destruct (proj2 (order_failed_answer w error) answer Hanswer)
        as (message & status & -> & Hstatus).
      cbn. tauto.
Qed.

Lemma create_order_always_answers_witness :
  exists answer,
    snd (run (failing bad_gateway)
           (Razorpay.create_order razorpay_env client (order_body (VNum 100))))
    = Returns answer
    /\ (status answer = 200 \/ status answer = 400 \/ status answer = 500
        \/ status answer = 503).
Proof.
  apply create_order_always_answers.
  intros options error [= <-]. exists 502%float. reflexivity.
Defined.

(** X2: src/index.js calls the gateway at most once per order request.
    The external calls of a run are none, or one reading of the clock, or
    one reading of the clock followed by one [orders.create]: there is no
    second call and no retry.  A response with status 200 is sent only
    when that one call was made and the gateway resolved it, and then it
    carries the [id], [amount] and [currency] of the order the gateway
    returned. *)
Theorem create_order_calls_gateway_at_most_once
    (env : gmap string string) (razorpay : value) (body : gmap string value)
    (w : world Razorpay.effect) :
  let outcome := run w (Razorpay.create_order env razorpay body) in
  (fst outcome = []
   \/ fst outcome = [ Made Razorpay.DateNow ]
   \/ exists options,
        fst outcome
        = [ Made Razorpay.DateNow; Made (Razorpay.OrdersCreate options) ])
  /\ forall answer,
       snd outcome = Returns answer ->
       status answer = 200 ->
       exists options order,
         fst outcome
         = [ Made Razorpay.DateNow; Made (Razorpay.OrdersCreate options) ]
         /\ w _ (Razorpay.OrdersCreate options) = Returns order
         /\ answer = json 200 (object [ ("orderId", get order "id");
                                        ("amount", get order "amount");
                                        ("currency", get order "currency") ]).
Proof.
  intros outcome. subst outcome.
  destruct (create_order_cases env razorpay body w)
    as [(answer & -> & Hstatus)
       | [-> | [[_ ->] | [(_ & _ & ->) | (_ & options & ->)]]]];
    cbn [fst snd].
  - split; [by left |]. intros ? [= <-] H. rewrite Hstatus in H. discriminate.
  - split; [by left |]. intros ? [= <-]. discriminate.
  - split; [right; by left |]. intros ? [= <-]. discriminate.
  - split; [right; by left |]. intros ? [= <-]. discriminate.
  - split; [right; right; by eexists |]. intros answer Hanswer Hstatus.
    destruct (w _ (Razorpay.OrdersCreate options)) as [order | error] eqn:Hw.
    + destruct (forallb printable _); injection Hanswer as <-;
        [by exists options, order | discriminate].
    + destruct (proj2 (order_failed_answer w error) answer Hanswer)
        as (message & status & -> & Hcode).
      cbn in Hstatus. lia.
Qed.

(** X3: once [startup] has let the server listen, the order handler never
    reports an uninitialised payment system.  With the client [startup]
    leaves in the module variable, no run of the handler stops after
    reading the clock, and the answer
    [{error: 'Payment system not initialized', ...}] is never sent. *)
Theorem started_server_is_initialised
    (env : gmap string string)
    (new_Razorpay : value -> completion (gmap string value))
    (razorpay : value) (body : gmap string value) (w : world Razorpay.effect) :
  Razorpay.startup env new_Razorpay = Some razorpay ->
  fst (run w (Razorpay.create_order env razorpay body))
  <> [ Made Razorpay.DateNow ]
  /\ snd (run w (Razorpay.create_order env razorpay body))
     <> Returns
          (json 500
             (object [ ("error", VStr "Payment system not initialized");
                       ("message",
                        VStr "Razorpay instance is not properly initialized") ])).
Proof.
  intros Hstartup. apply startup_initialises in Hstartup as (Hr & Hkey & _).
  destruct (create_order_cases env razorpay body w)
    as [(answer & -> & Hstatus)
       | [-> | [[Hfalse _] | [(_ & Hnone & _) | (_ & options & ->)]]]];
    cbn [fst snd].
  - split; [discriminate |]. intros [= ->]. discriminate.
  - split; discriminate.
  - congruence.
  - unfold Razorpay.getenv in Hkey. rewrite Hnone in Hkey. discriminate.
  - split; [discriminate |].
    destruct (w _ (Razorpay.OrdersCreate options)) as [order | error];
      [destruct (forallb printable _); discriminate |].
    intros Hanswer.
    by destruct (proj2 (order_failed_answer w error) _ Hanswer)
      as (message & status & [=] & _).
Qed.

Lemma started_server_is_initialised_witness :
  fst (run healthy
         (Razorpay.create_order razorpay_env (VObj ∅) (order_body (VNum 100))))
  <> [ Made Razorpay.DateNow ]
  /\ snd (run healthy
            (Razorpay.create_order razorpay_env (VObj ∅)
               (order_body (VNum 100))))
     <> Returns
          (json 500
             (object [ ("error", VStr "Payment system not initialized");
                       ("message",
                        VStr "Razorpay instance is not properly initialized") ])).
Proof.
  apply (started_server_is_initialised razorpay_env new_Razorpay).
  reflexivity.
Defined.



(** ** Order creation in the earlier copies (src/unnamed/part_001) *)

Lemma legacy_create_order_cases (body : gmap string value)
    (w : world RazorpayLegacy.effect) :
  let outcome := run w (RazorpayLegacy.create_order body) in
  (exists answer, outcome = ([], Returns answer) /\ status answer = 400)
  \/ outcome
     = ([], Returns
              (json 500
                 (object [ ("error", VStr "Failed to create payment order");
                           ("message", not_converted) ])))
  \/ exists options,
       outcome
       = ([ Made RazorpayLegacy.DateNow;
            Made (RazorpayLegacy.OrdersCreate options) ],
          match w _ (RazorpayLegacy.OrdersCreate options) with
          | Returns order =>
              if forallb printable [ get order "id"; get order "amount";
                                     get order "currency" ]
              then
                Returns (json 200 (object [ ("orderId", get order "id");
                                            ("amount", get order "amount");
                                            ("currency", get order "currency") ]))
              else
                Returns
                  (json 500
                     (object [ ("error", VStr "Failed to create payment order");
                               ("message", not_converted) ]))
          | Throws error =>
              Returns (json 500
                         (object [ ("error", VStr "Failed to create payment order");
                                   ("message", get error "message") ]))
          end).
Proof.
  intros outcome. subst outcome.
  destruct (forallb printable [ get body "amount"; get body "spotName";
                                get body "duration" ]) eqn:Hlog.
  2: { right. left. by rewrite (legacy_create_order_unprintable body Hlog). }
  destruct (truthy (get body "amount") && truthy (get body "spotName")
            && truthy (get body "duration")) eqn:Hpresent.
  2: { left. rewrite (legacy_create_order_missing body Hlog Hpresent). eauto. }
  apply andb_prop in Hpresent as [Hpresent Hd].
  apply andb_prop in Hpresent as [Ha Hs].
  destruct (to_number (get body "amount")) as [x | e] eqn:Hnumber.
  2: { right. left. apply to_number_throws in Hnumber as Heq. subst e.
       unfold RazorpayLegacy.create_order. rewrite (template_printable _ Hlog).
       step. rewrite Ha, Hs, Hd. unfold lt. rewrite Hnumber. reflexivity. }
  destruct (PrimFloat.ltb x 50) eqn:Hbelow.
  { left. destruct (to_number_to_string _ _ Hnumber) as [given Hgiven].
    rewrite (legacy_create_order_below body Hlog x Ha Hs Hd Hnumber given
               Hgiven Hbelow).
    eauto. }
  right. right. eexists.
  apply (legacy_create_order_accepted body Hlog x Ha Hs Hd Hnumber Hbelow w).
Qed.

(** X5: the earlier copies answer every order request and call the
    gateway at most once.  Whatever the body and the gateway do, the
    handler of src/unnamed/part_001 completes with a response of status
    200, 400 or 500, and its external calls are none, or one reading of
    the clock followed by one [orders.create]. *)
Theorem legacy_create_order_always_answers
    (body : gmap string value) (w : world RazorpayLegacy.effect) :
  exists calls answer,
    run w (RazorpayLegacy.create_order body) = (calls, Returns answer)
    /\ (status answer = 200 \/ status answer = 400 \/ status answer = 500)
    /\ (calls = []
        \/ exists options,
             calls = [ Made RazorpayLegacy.DateNow;
                       Made (RazorpayLegacy.OrdersCreate options) ])
    /\ (status answer = 200 ->
        exists options order,
          calls = [ Made RazorpayLegacy.DateNow;
                    Made (RazorpayLegacy.OrdersCreate options) ]
          /\ w _ (RazorpayLegacy.OrdersCreate options) = Returns order).
Proof.
  destruct (legacy_create_order_cases body w)
    as [(answer & -> & Hstatus) | [-> | (options & ->)]].
  - do 2 eexists. split; [reflexivity |]. rewrite Hstatus.
    split; [tauto |]. split; [by left |]. discriminate.
  - do 2 eexists. split; [reflexivity |]. cbn [status json].
    split; [tauto |]. split; [by left |]. discriminate.
  - destruct (w _ (RazorpayLegacy.OrdersCreate options)) as [order | error] eqn:Hw;
      [destruct (forallb printable _) |];
      do 2 eexists; (split; [reflexivity |]); cbn [status json];
      (split; [tauto |]); (split; [right; by eexists |]).
    + intros _. by exists options, order.
    + discriminate.
    + discriminate.
Qed.

(** A Number that is NaN is the NaN. *)
Lemma is_nan_eq (x : float) : PrimFloat.is_nan x = true -> x = nan.
Proof.
  unfold PrimFloat.is_nan. rewrite FloatAxioms.eqb_spec. intros H.
  rewrite <- (SF2Prim_Prim2SF x).
  destruct (Prim2SF x) eqn:E; try reflexivity;
    rewrite SFeqb_refl in H; try discriminate.
Qed.

(** X6: the earlier copies take an amount that is not a number to the
    gateway.  When [amount], [spotName] and [duration] are present,
    [spotName] and [duration] convert to Strings and the amount converts
    to NaN, the handler of src/unnamed/part_001 calls [orders.create]
    with [amount: NaN], where src/index.js answers 400 without calling
    the gateway. *)
Theorem legacy_not_a_number_reaches_gateway
    (body : gmap string value) (x : float) (w : world RazorpayLegacy.effect) :
  truthy (get body "amount") = true ->
  truthy (get body "spotName") = true ->
  truthy (get body "duration") = true ->
  printable (get body "spotName") = true ->
  printable (get body "duration") = true ->
  to_number (get body "amount") = Returns x ->
  PrimFloat.is_nan x = true ->
  (exists options : gmap string value,
      fst (run w (RazorpayLegacy.create_order body))
      = [ Made RazorpayLegacy.DateNow;
          Made (RazorpayLegacy.OrdersCreate (VObj options)) ]
      /\ options !! "amount" = Some (VNum nan))
  /\ forall env razorpay,
       Razorpay.create_order env razorpay body
       = Ret (json 400
                (object [ ("error",
                           VStr "Invalid amount. Amount must be a positive number.") ])).
Proof.
  intros Ha Hs Hd Hps Hpd Hnumber Hnan.
  pose proof (order_printable body x Hnumber Hps Hpd) as Hlog. split.
  - apply is_nan_eq in Hnan. subst x.
    rewrite (legacy_create_order_accepted body Hlog nan Ha Hs Hd Hnumber
               eq_refl w).
    unfold object. cbn [fst]. eexists. split; [reflexivity |]. reflexivity.
  - intros env razorpay.
    apply (create_order_invalid env razorpay body Hlog x Ha Hs Hd Hnumber).
    by rewrite Hnan.
Qed.

Lemma legacy_not_a_number_reaches_gateway_witness :
  (exists options : gmap string value,
      fst (run legacy_healthy (RazorpayLegacy.create_order (order_body (VStr "abc"))))
      = [ Made RazorpayLegacy.DateNow;
          Made (RazorpayLegacy.OrdersCreate (VObj options)) ]
      /\ options !! "amount" = Some (VNum nan))
  /\ forall env razorpay,
       Razorpay.create_order env razorpay (order_body (VStr "abc"))
       = Ret (json 400
                (object [ ("error",
                           VStr "Invalid amount. Amount must be a positive number.") ])).
Proof.
  apply (legacy_not_a_number_reaches_gateway (order_body (VStr "abc")) nan
           legacy_healthy);
    reflexivity.
Defined.


(** ** Checkout sessions (src/unnamed/part_000) *)

(** The products of the catalog are the five of the literal. *)
Lemma catalog_entry (key : string) (v : value) :
  Stripe.PARKING_PRODUCTS !! key = Some v -> (key, v) ∈ Catalog.entries.
Proof. apply elem_of_list_to_map_2. Qed.

Lemma catalog_product (key : string) (v : value) :
  Stripe.PARKING_PRODUCTS !! key = Some v ->
  key ∈ [ "1"; "2"; "5"; "10"; "24" ]
  /\ exists name price hours, v = Stripe.product name price hours.
Proof.
  intros H. apply catalog_entry in H. unfold Catalog.entries in H.
  rewrite !elem_of_cons, elem_of_nil in H.
  destruct H as [[= -> ->] | [[= -> ->] | [[= -> ->] | [[= -> ->] | [[= -> ->] | []]]]]];
    (split; [rewrite !elem_of_cons; tauto | eauto]).
Qed.

(** A Number that is zero is [0] or [-0]. *)
Lemma is_zero_eq (x : float) :
  PrimFloat.is_zero x = true -> x = zero \/ x = neg_zero.
Proof.
  unfold PrimFloat.is_zero. rewrite FloatAxioms.eqb_spec. intros H.
  rewrite <- (SF2Prim_Prim2SF x).
  change (Prim2SF zero) with (S754_zero false) in H.
  destruct (Prim2SF x) as [[] | [] | | [] m e]; try discriminate;
    [by right | by left].
Qed.

(** A value that is falsy names no product of the catalog. *)
Lemma catalog_key_truthy (v : value) (key : string) :
  to_string v = Returns key ->
  key ∈ [ "1"; "2"; "5"; "10"; "24" ] ->
  truthy v = true.
Proof.
  intros Hkey Hin. destruct (truthy v) eqn:Hv; [reflexivity | exfalso].
  rewrite !elem_of_cons, elem_of_nil in Hin.
  destruct v as [| | [] | x | s | | |]; try discriminate;
    cbn in Hkey; injection Hkey as <-.
  - intuition discriminate.
  - intuition discriminate.
  - intuition discriminate.
  - cbn in Hv. apply negb_false_iff, orb_prop in Hv as [Hx | Hx].
    + apply is_nan_eq in Hx. subst x. vm_compute in Hin. intuition discriminate.
    + apply is_zero_eq in Hx as [-> | ->]; vm_compute in Hin;
        intuition discriminate.
  - cbn in Hv. apply negb_false_iff, String.eqb_eq in Hv. subst s.
    intuition discriminate.
Qed.

(** [a || b] where [b] is a template literal over the front end's
    address. *)
Lemma or_else_frontend (env : gmap string string) (url : value) (suffix : string) :
  Stripe.or_else url
    (frontend ← to_string (Stripe.getenv env "FRONTEND_URL");
     Returns (VStr (frontend +:+ suffix)))
  = Returns (if truthy url then url else VStr (frontend env +:+ suffix)).
Proof.
  unfold Stripe.or_else, Stripe.getenv, frontend.
  destruct (truthy url); [reflexivity |].
  by destruct (env !! "FRONTEND_URL").
Qed.

(** The parameters of the gateway call for a product of the catalog's
    form and a JSON object of vehicle data. *)
Lemma session_params_product
    (env : gmap string string) (productId successUrl cancelUrl : value)
    (vehicle : gmap string value) (name : string) (price hours : float) :
  Stripe.session_params env productId (VObj vehicle) successUrl cancelUrl
    (Stripe.product name price hours)
  = Returns
      (object
         [ ("payment_method_types", VArr [VStr "card"]);
           ("line_items",
            VArr [ object
                     [ ("price_data",
                        object
                          [ ("currency", VStr "inr");
                            ("product_data",
                             object
                               [ ("name", VStr name);
                                 ("description",
                                  VStr ("Prepaid parking for "
                                        +:+ number_to_string hours
                                        +:+ " hour"
                                        +:+ (if PrimFloat.ltb 1 hours
                                             then "s" else "")));
                                 ("metadata",
                                  object
                                    [ ("plateNumber", get vehicle "plateNumber");
                                      ("ownerName", get vehicle "ownerName");
                                      ("vehicleModel", get vehicle "vehicleModel");
                                      ("hours", VStr (number_to_string hours)) ]) ]);
                            ("unit_amount", VNum price) ]);
                       ("quantity", VNum 1) ] ]);
           ("mode", VStr "payment");
           ("success_url",
            if truthy successUrl then successUrl
            else VStr (frontend env
                       +:+ "?payment=success&session_id={CHECKOUT_SESSION_ID}"));
           ("cancel_url",
            if truthy cancelUrl then cancelUrl
            else VStr (frontend env +:+ "?payment=cancelled"));
           ("metadata",
            object [ ("plateNumber", get vehicle "plateNumber");
                     ("ownerName", get vehicle "ownerName");
                     ("vehicleModel", get vehicle "vehicleModel");
                     ("hours", VStr (number_to_string hours));
                     ("productId", productId) ]) ]).
Proof.
  unfold Stripe.session_params. rewrite !or_else_frontend.
  reflexivity.
Qed.

(** A request that names a product of the catalog and describes the
    vehicle: one call to the gateway, answered by its outcome. *)
Lemma create_checkout_session_valid
    (env : gmap string string) (body vehicle : gmap string value)
    (key name : string) (price hours : float) (w : world Stripe.effect) :
  to_string (get body "productId") = Returns key ->
  Stripe.PARKING_PRODUCTS !! key = Some (Stripe.product name price hours) ->
  get body "vehicleData" = VObj vehicle ->
  truthy (get vehicle "plateNumber") = true ->
  truthy (get vehicle "ownerName") = true ->
  exists params,
    Stripe.session_params env (get body "productId") (VObj vehicle)
      (get body "successUrl") (get body "cancelUrl")
      (Stripe.product name price hours)
    = Returns params
    /\ run w (Stripe.create_checkout_session env body)
       = match w _ (Stripe.SessionsCreate params) with
         | Returns session =>
             ([ Made (Stripe.SessionsCreate params) ],
              Returns (json 200
                         (object [ ("sessionId", get session "id");
                                   ("url", get session "url");
                                   ("productInfo",
                                    Stripe.product name price hours) ])))
         | Throws error =>
             ([ Made (Stripe.SessionsCreate params);
                Made (Stripe.ConsoleError
                        [ VStr "Error creating checkout session:";
                          VObj error ]) ],
              Returns (json 500 (object [ ("error", get error "message") ])))
         end.
Proof.
  intros Hkey Hcatalog Hvehicle Hplate Howner.
  destruct (catalog_product _ _ Hcatalog) as [Hin _].
  pose proof (catalog_key_truthy _ _ Hkey Hin) as Hid.
  eexists. split; [apply session_params_product |].
  unfold Stripe.create_checkout_session. rewrite Hid, Hvehicle.
  assert (Hget : get Stripe.PARKING_PRODUCTS key
                 = Stripe.product name price hours)
    by (unfold get; by rewrite Hcatalog).
  unfold Stripe.lookup_product. rewrite Hkey. step. rewrite !Hget.
  change (truthy (Stripe.product name price hours)) with true.
  cbn [truthy member]. step. rewrite Hplate. step. rewrite Howner. step.
  rewrite session_params_product. step. cbn [run].
  match goal with
  | |- context [w _ ?call] => destruct (w _ call)
  end; reflexivity.
Qed.

(** X7: the checkout charges the catalog's price.  For a request that
    names a product of the catalog and gives a plate number and an owner,
    the first call of POST /create-checkout-session is
    [checkout.sessions.create] for one line item, quantity 1, in INR,
    whose [unit_amount] and name are those of the catalog: nothing of the
    request enters the amount.  No other call to the sessions API
    follows, and when the gateway resolves, the answer is
    [{sessionId, url, productInfo}] with the catalog's product. *)
Theorem checkout_charges_catalog_price
    (env : gmap string string) (body vehicle : gmap string value)
    (key : string) (product : value) (w : world Stripe.effect) :
  to_string (get body "productId") = Returns key ->
  Stripe.PARKING_PRODUCTS !! key = Some product ->
  get body "vehicleData" = VObj vehicle ->
  truthy (get vehicle "plateNumber") = true ->
  truthy (get vehicle "ownerName") = true ->
  exists params rest outcome,
    run w (Stripe.create_checkout_session env body)
    = (Made (Stripe.SessionsCreate params) :: rest, outcome)
    /\ count session_call rest = 0
    /\ (let item := first (field "line_items" params) in
        field "unit_amount" (field "price_data" item) = field "price" product
        /\ field "currency" (field "price_data" item) = VStr "inr"
        /\ field "name" (field "product_data" (field "price_data" item))
           = field "name" product
        /\ field "quantity" item = VNum 1
        /\ field "line_items" params = VArr [item])
    /\ forall session,
         w _ (Stripe.SessionsCreate params) = Returns session ->
         rest = []
         /\ outcome
            = Returns (json 200 (object [ ("sessionId", get session "id");
                                          ("url", get session "url");
                                          ("productInfo", product) ])).
Proof.
  intros Hkey Hcatalog Hvehicle Hplate Howner.
  destruct (catalog_product _ _ Hcatalog) as (_ & name & price & hours & ->).
  destruct (create_checkout_session_valid env body vehicle key name price hours
              w Hkey Hcatalog Hvehicle Hplate Howner) as (params & Hparams & ->).
  rewrite session_params_product in Hparams. injection Hparams as <-.
  match goal with
  | |- context [w _ ?call] => destruct (w _ call) as [session | error] eqn:Hw
  end;
    do 3 eexists; (split; [reflexivity |]); (split; [reflexivity |]);
    (split; [repeat split |]); intros session' Hsession;
    rewrite Hw in Hsession.
  - by injection Hsession as <-.
  - discriminate.
Qed.

Lemma checkout_charges_catalog_price_witness :
  exists params rest outcome,
    run (stripe_world (Returns paid_session) (Throws signature_error))
      (Stripe.create_checkout_session stripe_env (checkout_body (VStr "2")))
    = (Made (Stripe.SessionsCreate params) :: rest, outcome)
    /\ count session_call rest = 0
    /\ (let item := first (field "line_items" params) in
        field "unit_amount" (field "price_data" item)
        = field "price" (Stripe.product "2 Hour Parking" 2000 2)
        /\ field "currency" (field "price_data" item) = VStr "inr"
        /\ field "name" (field "product_data" (field "price_data" item))
           = field "name" (Stripe.product "2 Hour Parking" 2000 2)
        /\ field "quantity" item = VNum 1
        /\ field "line_items" params = VArr [item])
    /\ forall session,
         stripe_world (Returns paid_session) (Throws signature_error) _
           (Stripe.SessionsCreate params)
         = Returns session ->
         rest = []
         /\ outcome
            = Returns (json 200
                         (object [ ("sessionId", get session "id");
                                   ("url", get session "url");
                                   ("productInfo",
                                    Stripe.product "2 Hour Parking" 2000 2) ])).
Proof.
  apply (checkout_charges_catalog_price stripe_env (checkout_body (VStr "2"))
           (list_to_map [ ("plateNumber", VStr "MH12AB1234");
                          ("ownerName", VStr "A. Driver");
                          ("vehicleModel", VStr "Hatchback") ])
           "2");
    reflexivity.
Defined.

(** X8: the return addresses of a checkout.  For a valid request the
    [success_url] and [cancel_url] handed to the gateway are the request's
    [successUrl] and [cancelUrl] unchanged whenever these are truthy, and
    are otherwise built from the environment variable FRONTEND_URL, as the
    text ["undefined"] when it is not set. *)
Theorem checkout_return_urls
    (env : gmap string string) (body vehicle : gmap string value)
    (key : string) (product : value) (w : world Stripe.effect) :
  to_string (get body "productId") = Returns key ->
  Stripe.PARKING_PRODUCTS !! key = Some product ->
  get body "vehicleData" = VObj vehicle ->
  truthy (get vehicle "plateNumber") = true ->
  truthy (get vehicle "ownerName") = true ->
  exists params rest outcome,
    run w (Stripe.create_checkout_session env body)
    = (Made (Stripe.SessionsCreate params) :: rest, outcome)
    /\ field "success_url" params
       = (if truthy (get body "successUrl") then get body "successUrl"
          else VStr (match env !! "FRONTEND_URL" with
                     | Some url => url
                     | None => "undefined"
                     end
                     +:+ "?payment=success&session_id={CHECKOUT_SESSION_ID}"))
    /\ field "cancel_url" params
       = (if truthy (get body "cancelUrl") then get body "cancelUrl"
          else VStr (match env !! "FRONTEND_URL" with
                     | Some url => url
                     | None => "undefined"
                     end
                     +:+ "?payment=cancelled")).
Proof.
  intros Hkey Hcatalog Hvehicle Hplate Howner.
  destruct (catalog_product _ _ Hcatalog) as (_ & name & price & hours & ->).
  destruct (create_checkout_session_valid env body vehicle key name price hours
              w Hkey Hcatalog Hvehicle Hplate Howner) as (params & Hparams & ->).
  rewrite session_params_product in Hparams. injection Hparams as <-.
  match goal with
  | |- context [w _ ?call] => destruct (w _ call) as [session | error]
  end;
    do 3 eexists; (split; [reflexivity |]); split; reflexivity.
Qed.

Lemma checkout_return_urls_witness :
  exists params rest outcome,
    run (stripe_world (Returns paid_session) (Throws signature_error))
      (Stripe.create_checkout_session ∅
         (<[ "cancelUrl" := VStr "https://elsewhere.example/back" ]>
            (checkout_body (VStr "2"))))
    = (Made (Stripe.SessionsCreate params) :: rest, outcome)
    /\ field "success_url" params
       = VStr "undefined?payment=success&session_id={CHECKOUT_SESSION_ID}"
    /\ field "cancel_url" params = VStr "https://elsewhere.example/back".
Proof.
  exact (checkout_return_urls ∅
           (<[ "cancelUrl" := VStr "https://elsewhere.example/back" ]>
              (checkout_body (VStr "2")))
           (list_to_map [ ("plateNumber", VStr "MH12AB1234");
                          ("ownerName", VStr "A. Driver");
                          ("vehicleModel", VStr "Hatchback") ])
           "2" (Stripe.product "2 Hour Parking" 2000 2)
           (stripe_world (Returns paid_session) (Throws signature_error))
           eq_refl eq_refl eq_refl eq_refl eq_refl).
Defined.

(** Reading a property of a truthy value does not throw. *)
Lemma member_truthy (v : value) (key : string) :
  truthy v = true -> exists r, member v key = Returns r.
Proof. destruct v as [| | | | | | | []]; try discriminate; cbn; eauto. Qed.

(** X9: a checkout needs the vehicle's plate number and owner.  For a
    request that names a product of the catalog, when [vehicleData] is
    falsy or its [plateNumber] or its [ownerName] is falsy, the answer is
    400 [{error: 'Vehicle data is required'}] and no call is made. *)
Theorem checkout_requires_vehicle_data
    (env : gmap string string) (body : gmap string value)
    (key : string) (product : value) :
  to_string (get body "productId") = Returns key ->
  Stripe.PARKING_PRODUCTS !! key = Some product ->
  (truthy (get body "vehicleData") = false
   \/ (exists plate,
         member (get body "vehicleData") "plateNumber" = Returns plate
         /\ truthy plate = false)
   \/ (exists owner,
         member (get body "vehicleData") "ownerName" = Returns owner
         /\ truthy owner = false)) ->
  Stripe.create_checkout_session env body
  = Ret (json 400 (object [ ("error", VStr "Vehicle data is required") ])).
Proof.
  intros Hkey Hcatalog Hmissing.
  destruct (catalog_product _ _ Hcatalog) as (Hin & name & price & hours & ->).
  pose proof (catalog_key_truthy _ _ Hkey Hin) as Hid.
  assert (Hget : get Stripe.PARKING_PRODUCTS key
                 = Stripe.product name price hours)
    by (unfold get; by rewrite Hcatalog).
  unfold Stripe.create_checkout_session. rewrite Hid.
  unfold Stripe.lookup_product. rewrite Hkey. step. rewrite !Hget.
  change (truthy (Stripe.product name price hours)) with true. step.
  destruct (truthy (get body "vehicleData")) eqn:Hvehicle; [| reflexivity].
  destruct (member_truthy _ "plateNumber" Hvehicle) as [plate Hplate].
  destruct (member_truthy _ "ownerName" Hvehicle) as [owner Howner].
  rewrite Hplate. step. destruct (truthy plate) eqn:Htp; [| reflexivity].
  rewrite Howner. step. destruct (truthy owner) eqn:Hto; [| reflexivity].
  destruct Hmissing as [? | [(? & ? & ?) | (? & ? & ?)]]; congruence.
Qed.

Lemma checkout_requires_vehicle_data_witness :
  Stripe.create_checkout_session stripe_env
    (list_to_map [ ("productId", VNum 24);
                   ("vehicleData", object [ ("plateNumber", VStr "MH12AB1234");
                                            ("ownerName", VStr "") ]) ])
  = Ret (json 400 (object [ ("error", VStr "Vehicle data is required") ])).
Proof.
  apply (checkout_requires_vehicle_data stripe_env _ "24"
           (Stripe.product "24 Hour Parking" 19900 24));
    [reflexivity | reflexivity |].
  right. right. exists (VStr ""). split; reflexivity.
Defined.

(** One step of a run whose next decision is not yet known: the
    completion of a conversion, a condition, or the gateway's answer. *)
Ltac crack :=
  repeat (step; cbn [run];
          match goal with
          | |- context [lift ?c] =>
              lazymatch c with
              | Returns _ => fail
              | Throws _ => fail
              | _ => destruct c eqn:?
              end
          | |- context [if ?b then _ else _] => destruct b eqn:?
          end).

(** X10: the checkout handler answers every request and creates at most
    one session.  Whatever the environment, the body and the gateway do,
    POST /create-checkout-session completes with a response of status 200,
    400 or 500; it calls the sessions API at most once, not at all when
    the status is 400, and a status of 200 comes only after
    [checkout.sessions.create] has resolved. *)
Theorem checkout_always_answers
    (env : gmap string string) (body : gmap string value)
    (w : world Stripe.effect) :
  exists calls answer,
    run w (Stripe.create_checkout_session env body) = (calls, Returns answer)
    /\ (status answer = 200 \/ status answer = 400 \/ status answer = 500)
    /\ count session_call calls <= 1
    /\ (status answer = 400 -> calls = [])
    /\ (status answer = 200 ->
        exists params session,
          calls = [ Made (Stripe.SessionsCreate params) ]
          /\ w _ (Stripe.SessionsCreate params) = Returns session).
Proof.
  unfold Stripe.create_checkout_session. crack.
  all: do 2 eexists; (split; [reflexivity |]);
    cbn [status json count session_call];
    (split; [tauto |]); (split; [lia |]);
    (split; [try discriminate; reflexivity |]);
    try discriminate; intros _; eauto.
Qed.

(** ** The catalog routes (src/unnamed/part_000) *)

(** The names an object inherits, one by one. *)
Lemma inherited_names (id : string) :
  id ∈ Object_prototype_members ->
  id = "constructor" \/ id = "__defineGetter__" \/ id = "__defineSetter__"
  \/ id = "hasOwnProperty" \/ id = "__lookupGetter__" \/ id = "__lookupSetter__"
  \/ id = "isPrototypeOf" \/ id = "propertyIsEnumerable" \/ id = "toString"
  \/ id = "valueOf" \/ id = "__proto__" \/ id = "toLocaleString".
Proof.
  unfold Object_prototype_members. rewrite !elem_of_cons, elem_of_nil. tauto.
Qed.

(** GET /products/:id for a product of the catalog's form. *)
Lemma get_product_found (id name : string) (price hours : float) :
  Stripe.PARKING_PRODUCTS !! id = Some (Stripe.product name price hours) ->
  Stripe.get_product id
  = Ret (json 200
           (object [ ("id", VStr id);
                     ("name", VStr name);
                     ("price", VNum price);
                     ("hours", VNum hours);
                     ("priceFormatted",
                      VStr ("â‚¹" +:+ to_fixed (PrimFloat.div price 100) 2)) ])).
Proof.
  intros Hcatalog. unfold Stripe.get_product, get. rewrite Hcatalog.
  change (truthy (Stripe.product name price hours)) with true.
  change (member (Stripe.product name price hours) "price")
    with (Returns (VNum price) : completion value).
  step. unfold div. cbn [to_number]. step.
  generalize (VStr ("â‚¹" +:+ to_fixed (PrimFloat.div price 100) 2)).
  intros formatted. reflexivity.
Qed.

(** X11: GET /products/:id never throws, and answers 404 exactly for the
    ids that are neither a key of the catalog nor the name of a member of
    [Object.prototype].  Every other id is answered with status 200; for a
    key of the catalog the answer is the product with its [id] and the
    price in rupees with two decimals. *)
Theorem get_product_not_found_iff (id : string) :
  (exists answer,
      Stripe.get_product id = Ret answer
      /\ (status answer = 404
          <-> Stripe.PARKING_PRODUCTS !! id = None
              /\ id ∉ Object_prototype_members)
      /\ (status answer = 404 \/ status answer = 200)
      /\ (status answer = 404 ->
          answer = json 404 (object [ ("error", VStr "Product not found") ])))
  /\ forall name price hours,
       Stripe.PARKING_PRODUCTS !! id = Some (Stripe.product name price hours) ->
       Stripe.get_product id
       = Ret (json 200
                (object [ ("id", VStr id);
                          ("name", VStr name);
                          ("price", VNum price);
                          ("hours", VNum hours);
                          ("priceFormatted",
                           VStr ("â‚¹" +:+ to_fixed (PrimFloat.div price 100) 2)) ])).
Proof.
  split; [| apply get_product_found].
  destruct (Stripe.PARKING_PRODUCTS !! id) as [product |] eqn:Hcatalog.
  - destruct (catalog_product _ _ Hcatalog) as (_ & name & price & hours & ->).
    rewrite (get_product_found id name price hours Hcatalog).
    eexists. split; [reflexivity |]. cbn [status json].
    repeat split; try discriminate; try tauto. intros [? _]. discriminate.
  - destruct (decide (id ∈ Object_prototype_members)) as [Hin | Hout].
    + assert (exists item, Stripe.get_product id = Ret (json 200 item))
        as [item ->].
      { apply inherited_names in Hin.
        repeat destruct Hin as [-> | Hin]; try subst id;
          eexists; vm_compute; reflexivity. }
      eexists. split; [reflexivity |]. cbn [status json].
      repeat split; try discriminate; try tauto.
    + rewrite (get_product_unknown id Hcatalog Hout).
      eexists. split; [reflexivity |]. cbn [status json]. tauto.
Qed.

(** X12: the listing and the lookup of products agree.  GET /products
    makes no call and lists the five products in the order of their ids,
    each with its price in rupees with two decimals; GET /products/:id
    answers with an element of that listing exactly when [id] is a key of
    the catalog; and GET /health reports the length of the listing. *)
Theorem listing_agrees_with_lookup (w : world Catalog.effect) :
  exists items,
    run w Catalog.get_products
    = ([], Returns (json 200 (object [ ("products", VArr items) ])))
    /\ field "id" <$> items
       = [ VStr "1"; VStr "2"; VStr "5"; VStr "10"; VStr "24" ]
    /\ field "priceFormatted" <$> items
       = [ VStr "â‚¹10.00"; VStr "â‚¹20.00"; VStr "â‚¹40.00"; VStr "â‚¹90.00";
           VStr "â‚¹199.00" ]
    /\ (forall id,
           is_Some (Stripe.PARKING_PRODUCTS !! id)
           <-> exists item,
                 item ∈ items /\ Stripe.get_product id = Ret (json 200 item))
    /\ run w Catalog.health
       = ([ Made Catalog.DateToISOString ],
          Returns
            (json 200
               (object [ ("status", VStr "OK");
                         ("timestamp", VStr (w _ Catalog.DateToISOString));
                         ("products",
                          VNum (Z_to_float (Z.of_nat (length items)))) ]))).
Proof.
  assert (exists items,
             run w Catalog.get_products
             = ([], Returns (json 200 (object [ ("products", VArr items) ])))
             /\ field "id" <$> items
                = [ VStr "1"; VStr "2"; VStr "5"; VStr "10"; VStr "24" ]
             /\ field "priceFormatted" <$> items
                = [ VStr "â‚¹10.00"; VStr "â‚¹20.00"; VStr "â‚¹40.00";
                    VStr "â‚¹90.00"; VStr "â‚¹199.00" ]
             /\ Forall2 (fun entry item =>
                           Stripe.get_product entry.1 = Ret (json 200 item))
                  Catalog.entries items)
    as (items & Hrun & Hids & Hprices & Hall).
  { eexists. split; [vm_compute; reflexivity |].
    split; [vm_compute; reflexivity |]. split; [vm_compute; reflexivity |].
    repeat constructor; vm_compute; reflexivity. }
  exists items. split; [exact Hrun |]. split; [exact Hids |].
  split; [exact Hprices |]. split.
  2: { unfold Catalog.health. step. cbn [run].
       rewrite <- (length_fmap (field "id") items), Hids. reflexivity. }
  intros id. split.
  - intros [product Hcatalog]. apply catalog_entry in Hcatalog.
    apply list_elem_of_lookup_1 in Hcatalog as [i Hi].
    destruct (Forall2_lookup_l _ _ _ _ _ Hall Hi) as (item & Hitem & Hanswer).
    exists item. split; [by eapply list_elem_of_lookup_2 | exact Hanswer].
  - intros (item & Hitem & Hanswer).
    destruct (Stripe.PARKING_PRODUCTS !! id) as [product |] eqn:Hcatalog;
      [by eexists | exfalso].
    destruct (decide (id ∈ Object_prototype_members)) as [Hin | Hout].
    + apply (list_elem_of_fmap_2 (field "id")) in Hitem. rewrite Hids in Hitem.
      rewrite !elem_of_cons, elem_of_nil in Hitem.
      apply inherited_names in Hin.
      repeat destruct Hin as [-> | Hin]; try subst id;
        vm_compute in Hanswer; injection Hanswer as <-;
        vm_compute in Hitem;
        by destruct Hitem as [[=] | [[=] | [[=] | [[=] | [[=] | []]]]]].
    + rewrite (get_product_unknown id Hcatalog Hout) in Hanswer. discriminate.
Qed.

(** ** Session verification (src/unnamed/part_000) *)

(** X13: GET /verify-session/:sessionId answers every request after
    exactly one call to the gateway.  The handler calls
    [checkout.sessions.retrieve] once, with the id of the path unchanged,
    and never again; when the gateway resolves, the answer has status 200,
    and when it rejects, the error is logged once and answered with
    status 500 and the error's message. *)
Theorem verify_session_always_answers
    (sessionId : string) (w : world Stripe.effect) :
  exists rest answer,
    run w (Stripe.verify_session sessionId)
    = (Made (Stripe.SessionsRetrieve sessionId) :: rest, Returns answer)
    /\ count session_call rest = 0
    /\ match w _ (Stripe.SessionsRetrieve sessionId) with
       | Returns session => rest = [] /\ status answer = 200
       | Throws error =>
           rest = [ Made (Stripe.ConsoleError
                            [ VStr "Error verifying session:"; VObj error ]) ]
           /\ answer = json 500 (object [ ("error", get error "message") ])
       end.
Proof.
  unfold Stripe.verify_session. step. cbn [run].
  destruct (w _ (Stripe.SessionsRetrieve sessionId)) as [session | error];
    step.
  - destruct (strict_eq_str (get session "payment_status") "paid");
      do 2 eexists; repeat split; reflexivity.
  - cbn [run]. do 2 eexists. repeat split; reflexivity.
Qed.

(** ** The CORS policy (src/index.js, src/unnamed/part_001) *)

(** [indexOf] answers [-1] when no element is strictly equal to the value
    sought, and an index otherwise. *)
Lemma indexOf_from_spec (elems : list string) (v : value) (from : Z) :
  (0 <= from)%Z ->
  (Cors.indexOf_from from elems v = (-1)%Z
   /\ forall s, s ∈ elems -> v <> VStr s)
  \/ ((from <= Cors.indexOf_from from elems v)%Z
      /\ exists s, s ∈ elems /\ v = VStr s).
Proof.
  revert from. induction elems as [| s rest IH]; intros from Hfrom; cbn.
  - left. split; [reflexivity |]. intros s Hs. by apply elem_of_nil in Hs.
  - destruct (strict_eq_str v s) eqn:Hv.
    + apply strict_eq_str_true in Hv. right. split; [lia |].
      exists s. split; [apply elem_of_cons; by left | exact Hv].
    + destruct (IH (from + 1)%Z ltac:(lia)) as [[-> Hnone] | [Hle (t & Ht & Hvt)]].
      * left. split; [reflexivity |]. intros t Ht.
        apply elem_of_cons in Ht as [-> | Ht]; [| by apply Hnone].
        intros Heq. apply strict_eq_str_true in Heq. congruence.
      * right. split; [lia |]. exists t.
        split; [apply elem_of_cons; by right | exact Hvt].
Qed.

(** The test [list.indexOf(v) !== -1]. *)
Lemma indexOf_member (elems : list string) (v : value) :
  negb (Cors.indexOf elems v =? -1)%Z = true
  <-> exists s, s ∈ elems /\ v = VStr s.
Proof.
  unfold Cors.indexOf.
  destruct (indexOf_from_spec elems v 0 ltac:(lia))
    as [[-> Hnone] | [Hle Hsome]].
  - split; [discriminate |]. intros (s & Hs & Hv). by destruct (Hnone s Hs).
  - split; [by intros _ |]. intros _. apply negb_true_iff, Z.eqb_neq. lia.
Qed.

(** The two outcomes of the origin function of src/index.js. *)
Lemma origin_cases (env : gmap string string) (header : value) :
  (Cors.origin env header = Returns true
   /\ (truthy header = false
       \/ env !! "NODE_ENV" = Some "development"
       \/ exists s, s ∈ Cors.allowedOrigins /\ header = VStr s))
  \/ (Cors.origin env header = Throws (Cors.Error "Not allowed by CORS")
      /\ truthy header = true
      /\ strict_eq_str (Razorpay.getenv env "NODE_ENV") "development" = false
      /\ forall s, s ∈ Cors.allowedOrigins -> header <> VStr s).
Proof.
  unfold Cors.origin. destruct (truthy header); cbn [negb]; [| tauto].
  destruct (strict_eq_str _ "development") eqn:Hdev.
  - apply strict_eq_str_true in Hdev. unfold Razorpay.getenv in Hdev.
    destruct (env !! "NODE_ENV") as [mode |]; [| discriminate].
    injection Hdev as ->. tauto.
  - pose proof (indexOf_member Cors.allowedOrigins header) as Hmember.
    destruct (negb _).
    + left. split; [reflexivity |]. right. right. by apply Hmember.
    + right. repeat split. intros s Hs ->.
      enough (false = true) by discriminate. apply Hmember. eauto.
Qed.

(** X14: the origins src/index.js admits.  The origin function of the
    CORS middleware either accepts the request or rejects it with the
    error 'Not allowed by CORS'; it accepts exactly when the request has
    no (or an empty) Origin header, or NODE_ENV is ['development'], or the
    header is, character for character, one of the seven allowed
    origins. *)
Theorem cors_admits_iff (env : gmap string string) (header : value) :
  (Cors.origin env header = Returns true
   \/ Cors.origin env header = Throws (Cors.Error "Not allowed by CORS"))
  /\ (Cors.origin env header = Returns true
      <-> truthy header = false
          \/ env !! "NODE_ENV" = Some "development"
          \/ exists s, s ∈ Cors.allowedOrigins /\ header = VStr s).
Proof.
  destruct (origin_cases env header)
    as [[Hadmit Hwhy] | (Hblock & Hheader & Hdev & Hnone)].
  - split; [by left |]. by split.
  - split; [by right |]. rewrite Hblock. split; [discriminate |].
    intros [Hfalsy | [Hmode | (s & Hs & Heq)]].
    + congruence.
    + unfold Razorpay.getenv in Hdev. rewrite Hmode in Hdev. discriminate.
    + by destruct (Hnone s Hs).
Qed.

(** X15: src/index.js admits every origin its earlier copy admits.  An
    Origin header accepted by the origin function of the second copy of
    the server in src/unnamed/part_001 is accepted by the one of
    src/index.js, in every environment; ['https://www.trackmypark.com'] is
    accepted by src/index.js only. *)
Theorem cors_admits_what_earlier_copy_admits
    (env : gmap string string) (header : value) :
  Cors.legacy_origin env header = Returns true ->
  Cors.origin env header = Returns true
  /\ Cors.origin ∅ (VStr "https://www.trackmypark.com") = Returns true
  /\ Cors.legacy_origin ∅ (VStr "https://www.trackmypark.com")
     = Throws (Cors.Error "Not allowed by CORS").
Proof.
  intros Hlegacy. split; [| split; reflexivity].
  destruct (origin_cases env header)
    as [[Hadmit _] | (_ & Hheader & Hdev & Hnone)]; [exact Hadmit | exfalso].
  unfold Cors.legacy_origin in Hlegacy. rewrite Hheader, Hdev in Hlegacy.
  cbn [negb] in Hlegacy. destruct (negb _) eqn:Hin; [| discriminate].
  apply indexOf_member in Hin as (s & Hs & ->). apply (Hnone s); [| done].
  unfold Cors.legacy_allowedOrigins in Hs. unfold Cors.allowedOrigins.
  rewrite !elem_of_cons, elem_of_nil in Hs. rewrite !elem_of_cons. tauto.
Qed.

Lemma cors_admits_what_earlier_copy_admits_witness :
  Cors.origin ∅ (VStr "https://trackmypark.com") = Returns true
  /\ Cors.origin ∅ (VStr "https://www.trackmypark.com") = Returns true
  /\ Cors.legacy_origin ∅ (VStr "https://www.trackmypark.com")
     = Throws (Cors.Error "Not allowed by CORS").
Proof.
  apply (cors_admits_what_earlier_copy_admits ∅ (VStr "https://trackmypark.com")).
  reflexivity.
Defined.

(** X16: a request from an origin that is not admitted never reaches its
    route and is told nothing.  In src/index.js a request either passes
    the CORS middleware and is handled by its route, or it is answered by
    the error handler with status 500 and the fixed message
    'Something went wrong!', without any external call: the reason
    'Not allowed by CORS' is not sent, because an origin is rejected
    outside development only. *)
Theorem blocked_origin_gets_generic_answer
    {E : Type -> Type} (env : gmap string string) (header : value)
    (route : prog E response) (w : world E) :
  (Cors.origin env header = Returns true
   /\ Cors.through_cors env header route = route)
  \/ (Cors.origin env header = Throws (Cors.Error "Not allowed by CORS")
      /\ run w (Cors.through_cors env header route)
         = ([], Returns something_went_wrong)).
Proof.
  unfold Cors.through_cors.
  destruct (origin_cases env header)
    as [[Hadmit _] | (Hblock & _ & Hdev & _)].
  - left. by rewrite Hadmit.
  - right. split; [exact Hblock |]. rewrite Hblock.
    unfold Cors.error_handler, something_went_wrong. by rewrite Hdev.
Qed.

(** ** The diagnostic routes (src/index.js) *)

Lemma substring_whole (s : string) :
  String.substring 0 (String.length s) s = s.
Proof. induction s as [| c s IH]; cbn; [reflexivity | by rewrite IH]. Qed.

(** The first code units of a String that begins with ASCII characters
    are these characters. *)
Lemma substring_0_ascii (head tail : string) :
  ascii_only head = true ->
  Diagnostics.substring_0 (String.length head) (head +:+ tail) = head.
Proof.
  induction head as [| c head IH]; cbn [ascii_only String.length]; intros Hascii.
  - reflexivity.
  - apply andb_prop in Hascii as [Hc Hascii]. apply Nat.ltb_lt in Hc.
    change (String c head +:+ tail) with (String c (head +:+ tail)).
    cbn [Diagnostics.substring_0].
    destruct (Nat.ltb_spec (nat_of_ascii c) 240) as [_ | ?]; [| lia].
    destruct (Nat.ltb_spec (nat_of_ascii c) 192) as [_ | ?]; [| lia].
    unfold Diagnostics.split_at. cbn [String.substring String.length].
    replace (S (String.length (head +:+ tail)) - 1)
      with (String.length (head +:+ tail)) by lia.
    rewrite substring_whole.
    replace (String.substring 0 0 (head +:+ tail)) with "".
    2: { by destruct (head +:+ tail). }
    cbn. by rewrite IH.
Qed.

(** X17: GET /api/test-razorpay shows the first ten characters of the key
    id and nothing of the secret, and calls nobody.  With an initialised
    client and a key id that begins with ten ASCII characters, the answer
    is 200 with [key_id] set to these ten characters followed by ['...'];
    it is the same whatever follows them in the key id and whatever the
    secret is, and no external call is made. *)
Theorem test_razorpay_masks_credentials
    (env : gmap string string) (razorpay : value) (head tail : string)
    (w : world Diagnostics.effect) :
  truthy razorpay = true ->
  ascii_only head = true ->
  String.length head = 10 ->
  env !! "RAZORPAY_KEY_ID" = Some (head +:+ tail) ->
  run w (Diagnostics.test_razorpay env razorpay)
  = ([], Returns
           (json 200
              (object [ ("status", VStr "success");
                        ("message",
                         VStr "Razorpay instance is properly initialized");
                        ("key_id", VStr (head +:+ "..."));
                        ("node_env", Razorpay.getenv env "NODE_ENV") ])))
  /\ forall other secret,
       run w (Diagnostics.test_razorpay
                (<[ "RAZORPAY_SECRET" := secret ]>
                   (<[ "RAZORPAY_KEY_ID" := head +:+ other ]> env))
                razorpay)
       = run w (Diagnostics.test_razorpay env razorpay).
Proof.
  intros Hrazorpay Hascii Hlength Hkey.
  assert (Hmask : forall rest env',
             env' !! "RAZORPAY_KEY_ID" = Some (head +:+ rest) ->
             Diagnostics.key_id env' = VStr (head +:+ "...")).
  { intros rest env' Henv. unfold Diagnostics.key_id. rewrite Henv.
    rewrite <- Hlength, substring_0_ascii by done.
    destruct head; [discriminate | reflexivity]. }
  assert (Hrun : forall env',
             Diagnostics.key_id env' = VStr (head +:+ "...") ->
             run w (Diagnostics.test_razorpay env' razorpay)
             = ([], Returns
                      (json 200
                         (object [ ("status", VStr "success");
                                   ("message",
                                    VStr "Razorpay instance is properly initialized");
                                   ("key_id", VStr (head +:+ "..."));
                                   ("node_env", Razorpay.getenv env' "NODE_ENV") ])))).
  { intros env' Hid. unfold Diagnostics.test_razorpay.
    rewrite Hrazorpay, Hid. reflexivity. }
  split; [apply Hrun, (Hmask tail), Hkey |].
  intros other secret. rewrite !Hrun.
  - unfold Razorpay.getenv.
    by rewrite lookup_insert_ne, lookup_insert_ne.
  - by apply (Hmask tail).
  - apply (Hmask other).
    by rewrite lookup_insert_ne, lookup_insert_eq.
Qed.

Lemma test_razorpay_masks_credentials_witness :
  run (diagnostics_world (Throws unauthorized))
    (Diagnostics.test_razorpay razorpay_env client)
  = ([], Returns
           (json 200
              (object [ ("status", VStr "success");
                        ("message",
                         VStr "Razorpay instance is properly initialized");
                        ("key_id", VStr "rzp_test_1...");
                        ("node_env", VStr "production") ])))
  /\ forall other secret,
       run (diagnostics_world (Throws unauthorized))
         (Diagnostics.test_razorpay
            (<[ "RAZORPAY_SECRET" := secret ]>
               (<[ "RAZORPAY_KEY_ID" := "rzp_test_1" +:+ other ]> razorpay_env))
            client)
       = run (diagnostics_world (Throws unauthorized))
           (Diagnostics.test_razorpay razorpay_env client).
Proof.
  exact (test_razorpay_masks_credentials razorpay_env client "rzp_test_1"
           "234567890abcd" (diagnostics_world (Throws unauthorized))
           eq_refl eq_refl eq_refl eq_refl).
Defined.

(** X18: GET /api/test-razorpay-connectivity answers every request after
    at most one call to the gateway.  Without a client nothing is called
    and the status is 500; with a client [orders.all({count: 1})] is
    called once and never retried.  When it resolves the status is 200
    and [orders_count] is the gateway's [count]; when it rejects, the
    answer carries the error's message and the status handed to
    [res.status] is the error's [statusCode] itself whenever that is
    truthy, and 500 otherwise. *)
Theorem test_connectivity_always_answers
    (env : gmap string string) (razorpay : value)
    (w : world Diagnostics.effect) :
  let probe := Diagnostics.OrdersAll (object [ ("count", VNum 1) ]) in
  exists calls reply,
    run w (Diagnostics.test_connectivity env razorpay) = (calls, Returns reply)
    /\ (truthy razorpay = false ->
        calls = [] /\ Diagnostics.code reply = VNum 500)
    /\ (truthy razorpay = true ->
        calls = [ Made probe ]
        /\ match w _ probe with
           | Returns orders =>
               Diagnostics.code reply = VNum 200
               /\ field "success" (Diagnostics.content reply) = VBool true
               /\ field "orders_count" (Diagnostics.content reply)
                  = get orders "count"
           | Throws error =>
               Diagnostics.code reply
               = (if truthy (get error "statusCode")
                  then get error "statusCode" else VNum 500)
               /\ field "success" (Diagnostics.content reply) = VBool false
               /\ field "message" (Diagnostics.content reply)
                  = get error "message"
               /\ field "statusCode" (Diagnostics.content reply)
                  = get error "statusCode"
           end).
Proof.
  intros probe. unfold Diagnostics.test_connectivity.
  destruct (truthy razorpay); step.
  - cbn [run]. fold probe.
    destruct (w _ probe) as [orders | error]; step;
      do 2 eexists; (split; [reflexivity |]); (split; [discriminate |]);
      intros _; (split; [reflexivity |]);
      cbn [Diagnostics.code Diagnostics.content]; repeat split.
  - do 2 eexists. split; [reflexivity |]. split; [| discriminate].
    by intros _.
Qed.


(** ** The copies of the order handler compared *)

(** X19: src/index.js rejects whatever its earlier copies reject.  When
    the order handler of src/unnamed/part_001 answers a request with
    status 400, the handler of src/index.js answers the same request with
    status 400 as well, whatever its environment, client and gateway, and
    makes no external call. *)
Theorem index_rejects_what_earlier_copies_reject
    (env : gmap string string) (razorpay : value) (body : gmap string value)
    (w : world Razorpay.effect) (w' : world RazorpayLegacy.effect)
    (answer : response) :
  snd (run w' (RazorpayLegacy.create_order body)) = Returns answer ->
  status answer = 400 ->
  exists answer',
    run w (Razorpay.create_order env razorpay body) = ([], Returns answer')
    /\ status answer' = 400.
Proof.
  intros Hlegacy Hstatus.
  destruct (forallb printable [ get body "amount"; get body "spotName";
                                get body "duration" ]) eqn:Hlog.
  2: { exfalso. rewrite (legacy_create_order_unprintable body Hlog) in Hlegacy.
       injection Hlegacy as <-. discriminate. }
  destruct (truthy (get body "amount") && truthy (get body "spotName")
            && truthy (get body "duration")) eqn:Hpresent.
  2: { rewrite (create_order_missing env razorpay body Hlog Hpresent). eauto. }
  apply andb_prop in Hpresent as [Hpresent Hd].
  apply andb_prop in Hpresent as [Ha Hs].
  destruct (to_number (get body "amount")) as [x | e] eqn:Hnumber.
  2: { exfalso. apply to_number_throws in Hnumber as Heq. subst e.
       unfold RazorpayLegacy.create_order in Hlegacy.
       rewrite (template_printable _ Hlog) in Hlegacy. step.
       cbn [lift bind mbind prog_bind] in Hlegacy.
       rewrite Ha, Hs, Hd in Hlegacy. unfold lt in Hlegacy.
       rewrite Hnumber in Hlegacy. injection Hlegacy as <-. discriminate. }
  destruct (PrimFloat.is_nan x || PrimFloat.leb x 0) eqn:Hbad.
  { rewrite (create_order_invalid env razorpay body Hlog x Ha Hs Hd Hnumber
               Hbad).
    eauto. }
  apply orb_false_elim in Hbad as [Hnan Hpos].
  destruct (PrimFloat.ltb x 50) eqn:Hbelow.
  { destruct (to_number_to_string _ _ Hnumber) as [given Hgiven].
    rewrite (create_order_below env razorpay body Hlog x Ha Hs Hd Hnumber Hnan
               Hpos given Hgiven Hbelow).
    eauto. }
  exfalso.
  rewrite (legacy_create_order_accepted body Hlog x Ha Hs Hd Hnumber Hbelow w')
    in Hlegacy.
  cbn [snd] in Hlegacy.
  destruct (w' _ _); [destruct (forallb printable _) |];
    injection Hlegacy as <-; discriminate.
Qed.

Lemma index_rejects_what_earlier_copies_reject_witness :
  exists answer',
    run healthy (Razorpay.create_order razorpay_env client (order_body (VNum 10)))
    = ([], Returns answer')
    /\ status answer' = 400.
Proof.
  apply (index_rejects_what_earlier_copies_reject razorpay_env client
           (order_body (VNum 10)) healthy legacy_healthy
           (json 400
              (object [ ("error",
                         VStr "Minimum booking amount is ₹50. Your amount: ₹10");
                        ("minimumAmount", VNum 50) ])));
    reflexivity.
Defined.

(** ** What a caller sees of a gateway failure *)

(** X20: a failed order creation shows the gateway's error to the caller.
    In src/index.js, for a valid order request ([spotName] and [duration]
    present and convertible to Strings, an amount that converts to a
    number of at least 50, the client and the key id in place) whose
    [orders.create] is rejected with an error whose [statusCode] converts
    to a number, the answer has status 400, 500 or 503 and carries, next
    to the handler's own text under [error], the error's [message] and
    [statusCode] as the gateway gave them. *)
Theorem create_order_failure_carries_gateway_error
    (env : gmap string string) (razorpay : value) (body : gmap string value)
    (x code : float) (w : world Razorpay.effect) (error : exn) :
  truthy (get body "spotName") = true ->
  truthy (get body "duration") = true ->
  printable (get body "spotName") = true ->
  printable (get body "duration") = true ->
  truthy razorpay = true ->
  is_Some (env !! "RAZORPAY_KEY_ID") ->
  to_number (get body "amount") = Returns x ->
  PrimFloat.leb 50 x = true ->
  w _ (Razorpay.OrdersCreate
         (Razorpay.order_options (PrimFloat.mul x 100) (w _ Razorpay.DateNow)
            (get body "spotName") (get body "duration")))
  = Throws error ->
  to_number (get error "statusCode") = Returns code ->
  exists text status,
    snd (run w (Razorpay.create_order env razorpay body))
    = Returns (json status
                 (object [ ("error", VStr text);
                           ("message", get error "message");
                           ("statusCode", get error "statusCode") ]))
    /\ (status = 400 \/ status = 500 \/ status = 503).
Proof.
  intros Hs Hd Hps Hpd Hr Hkey Hnumber Hminimum Hw Hcode.
  rewrite (create_order_gateway_failure env razorpay body x w error Hs Hd Hps
             Hpd Hr Hkey Hnumber Hminimum Hw).
  cbn [snd].
  destruct (order_failed_total w error code Hcode) as [answer Hanswer].
  destruct (proj2 (order_failed_answer w error) answer Hanswer)
    as (text & status & -> & Hstatus).
  by exists text, status.
Qed.

Lemma create_order_failure_carries_gateway_error_witness :
  exists text status,
    snd (run (failing bad_gateway)
           (Razorpay.create_order razorpay_env client (order_body (VNum 100))))
    = Returns (json status
                 (object [ ("error", VStr text);
                           ("message", VStr "Bad Gateway");
                           ("statusCode", VNum 502) ]))
    /\ (status = 400 \/ status = 500 \/ status = 503).
Proof.
  exact (create_order_failure_carries_gateway_error razorpay_env client
           (order_body (VNum 100)) 100 502 (failing bad_gateway) bad_gateway
           eq_refl eq_refl eq_refl eq_refl eq_refl (mk_is_Some _ _ eq_refl)
           eq_refl eq_refl eq_refl eq_refl).
Defined.


(** X21: a failed checkout shows the gateway's error to the caller.  For
    a request that names a product of the catalog and gives a plate
    number and an owner, when [checkout.sessions.create] is rejected the
    handler logs the error once with [console.error], makes no further
    call, and answers 500 with the error's [message] as the gateway gave
    it. *)
Theorem checkout_failure_carries_gateway_error
    (env : gmap string string) (body vehicle : gmap string value)
    (key : string) (product params : value) (error : exn)
    (w : world Stripe.effect) :
  to_string (get body "productId") = Returns key ->
  Stripe.PARKING_PRODUCTS !! key = Some product ->
  get body "vehicleData" = VObj vehicle ->
  truthy (get vehicle "plateNumber") = true ->
  truthy (get vehicle "ownerName") = true ->
  Stripe.session_params env (get body "productId") (VObj vehicle)
    (get body "successUrl") (get body "cancelUrl") product
  = Returns params ->
  w _ (Stripe.SessionsCreate params) = Throws error ->
  run w (Stripe.create_checkout_session env body)
  = ([ Made (Stripe.SessionsCreate params);
       Made (Stripe.ConsoleError
               [ VStr "Error creating checkout session:"; VObj error ]) ],
     Returns (json 500 (object [ ("error", get error "message") ]))).
Proof.
  intros Hkey Hcatalog Hvehicle Hplate Howner Hparams Hw.
  destruct (catalog_product _ _ Hcatalog) as (_ & name & price & hours & ->).
  destruct (create_checkout_session_valid env body vehicle key name price hours
              w Hkey Hcatalog Hvehicle Hplate Howner) as (params' & Heq & ->).
  rewrite Hparams in Heq. injection Heq as <-. by rewrite Hw.
Qed.

Lemma checkout_failure_carries_gateway_error_witness :
  exists params,
    run (stripe_world (Throws bad_gateway) (Throws signature_error))
      (Stripe.create_checkout_session stripe_env (checkout_body (VStr "2")))
    = ([ Made (Stripe.SessionsCreate params);
         Made (Stripe.ConsoleError
                 [ VStr "Error creating checkout session:"; VObj bad_gateway ]) ],
       Returns (json 500 (object [ ("error", VStr "Bad Gateway") ]))).
Proof.
  eexists.
  refine (checkout_failure_carries_gateway_error stripe_env
            (checkout_body (VStr "2"))
            (list_to_map [ ("plateNumber", VStr "MH12AB1234");
                           ("ownerName", VStr "A. Driver");
                           ("vehicleModel", VStr "Hatchback") ])
            "2" (Stripe.product "2 Hour Parking" 2000 2) _ bad_gateway
            (stripe_world (Throws bad_gateway) (Throws signature_error))
            eq_refl eq_refl eq_refl eq_refl eq_refl eq_refl eq_refl).
Defined.

